(** * Census DBMS data access gateway: query construction, sessions, procedure calls

    A shallow embedding of the gateway of the census application:
    - [app/models/pydantic_models.py]: [Sex], [PaginationParams], [SearchFilters]
      and the request models the service reads;
    - [app/utils/db_service.py]: the [CensusService] operations;
    - [app/database/oracle_connection.py]: [get_session_context],
      [DirectOracleConnection.get_connection], [execute_raw_sql], [call_procedure];
    - [app/routes/census_routes.py]: the page count of the search route, the
      routes over the procedure operations and the health route;
    - [config/oracle_config.py]: the URL and the DSN of the connections;
    - [IndividualBase.validate_age_consistency], [test_connection],
      [get_database_session] and [get_database_statistics].

    Python integers are unbounded and are modelled by [Z]; [str] by [string];
    a [dict] with string keys by [gmap string _]; [Optional[T]] by [option T]. *)

From Stdlib Require Import ZArith String Ascii List Lia Bool Sorted Permutation QArith Qround.
From stdpp Require Import gmap strings list fin_maps pretty.

Local Open Scope string_scope.
Local Open Scope Z_scope.

(** ** Python values that cross the database boundary *)

Inductive pyval :=
| PNone
| PBool (b : bool)
| PInt (z : Z)
| PStr (s : string)
| PDate (ordinal : Z).

#[global] Instance pyval_eq_dec : EqDecision pyval.
Proof. solve_decision. Defined.

Definition of_opt_str (o : option string) : pyval :=
  match o with Some s => PStr s | None => PNone end.

Definition of_opt_int (o : option Z) : pyval :=
  match o with Some z => PInt z | None => PNone end.

Definition of_opt_date (o : option Z) : pyval :=
  match o with Some d => PDate d | None => PNone end.

(** Truth value of an [Optional[str]] in a condition: [None] and the empty
    string are false. *)
Definition truthy_str (o : option string) : bool :=
  match o with
  | Some s => negb (String.eqb s "")
  | None => false
  end.

(** Truth value of an [Optional[int]] in a condition: [None] and [0] are false. *)
Definition truthy_int (o : option Z) : bool :=
  match o with
  | Some z => negb (z =? 0)
  | None => false
  end.

Definition is_not_None {A} (o : option A) : bool :=
  match o with Some _ => true | None => false end.

(** ** Enumerations of [pydantic_models.py] *)

Inductive Sex := MALE | FEMALE.

Definition Sex_value (s : Sex) : string :=
  match s with MALE => "M" | FEMALE => "F" end.

Inductive HousingUnitStatus := OCCUPIED | VACANT.

Definition HousingUnitStatus_value (s : HousingUnitStatus) : string :=
  match s with OCCUPIED => "OCCUPIED" | VACANT => "VACANT" end.

Inductive CensusNightStatus := PRESENT | ABSENT | VISITOR.

Definition CensusNightStatus_value (s : CensusNightStatus) : string :=
  match s with PRESENT => "PRESENT" | ABSENT => "ABSENT" | VISITOR => "VISITOR" end.

Inductive YesNo := YES | NO.

Definition YesNo_value (s : YesNo) : string :=
  match s with YES => "Y" | NO => "N" end.

(** The enumerations derive from [str]; a member is true in a condition when
    its value is a non-empty string. *)
Definition truthy_enum {E} (value : E -> string) (o : option E) : bool :=
  truthy_str (value <$> o).

(** ** Utility models *)

Module PaginationParams.
Record t := { page : Z; size : Z }.

(** [page: int = Field(1, ge=1)], [size: int = Field(20, ge=1, le=100)] *)
Definition valid (p : t) : bool :=
  (1 <=? page p) && (1 <=? size p) && (size p <=? 100).

Definition offset (p : t) : Z := (page p - 1) * size p.
End PaginationParams.

Module SearchFilters.
Record t := {
  region_name : option string;
  district_name : option string;
  sex : option Sex;
  min_age : option Z;
  max_age : option Z;
  marital_status : option string;
  education_level : option string
}.

(** [min_age: Field(None, ge=0)], [max_age: Field(None, le=150)] *)
Definition valid (f : t) : bool :=
  match min_age f with Some a => 0 <=? a | None => true end
  && match max_age f with Some a => a <=? 150 | None => true end.

(** Every field left at its default [None]. *)
Definition empty : t :=
  {| region_name := None; district_name := None; sex := None;
     min_age := None; max_age := None;
     marital_status := None; education_level := None |}.
End SearchFilters.

(** ** Request models (the fields the service reads) *)

Module GeographicalInfoCreate.
Record t := {
  region_name : string;
  district_name : string;
  district_type : option string;
  sub_district : option string;
  locality_name : option string;
  nhis_ecg_vra_number : option string;
  detailed_address : option string;
  contact_phone_1 : option string;
  contact_phone_2 : option string;
  enumeration_area_code : option string;
  ea_type : option string;
  locality_code : option string;
  structure_number : option string
}.
End GeographicalInfoCreate.

(** This model has no [sub_district] and no [locality_name]. *)
Module GeographicalInfoUpdate.
Record t := {
  region_name : option string;
  district_name : option string;
  district_type : option string;
  detailed_address : option string;
  contact_phone_1 : option string;
  contact_phone_2 : option string
}.
End GeographicalInfoUpdate.

Module HouseholdCreate.
Record t := {
  geo_id : Z;
  household_number_in_structure : option string;
  type_of_residence : option string;
  interview_date_started : option Z;
  interview_date_completed : option Z;
  total_visits : option Z;
  form_number : option string;
  housing_unit_status : option HousingUnitStatus
}.
End HouseholdCreate.

Module HouseholdUpdate.
Record t := {
  type_of_residence : option string;
  interview_date_completed : option Z;
  total_visits : option Z;
  housing_unit_status : option HousingUnitStatus
}.
End HouseholdUpdate.

Module IndividualCreate.
Record t := {
  household_id : Z;
  person_line_number : option Z;
  full_name : string;
  relationship_to_head : option string;
  sex : option Sex;
  date_of_birth : option Z;
  age : option Z;
  nationality : option string;
  ethnicity : option string;
  religion : option string;
  marital_status : option string;
  highest_education_level : option string;
  status_on_census_night : option CensusNightStatus
}.
End IndividualCreate.

Module IndividualUpdate.
Record t := {
  full_name : option string;
  relationship_to_head : option string;
  sex : option Sex;
  age : option Z;
  nationality : option string;
  ethnicity : option string;
  religion : option string;
  marital_status : option string;
  highest_education_level : option string
}.
End IndividualUpdate.

Module HousingCreate.
Record t := {
  household_id : Z;
  dwelling_type : option string;
  outer_wall_material : option string;
  floor_material : option string;
  roof_material : option string;
  rooms_occupied : option Z;
  rooms_for_sleeping : option Z;
  main_lighting_source : option string;
  main_drinking_water_source : option string;
  toilet_facility_type : option string
}.
End HousingCreate.

Module HousingUpdate.
Record t := {
  dwelling_type : option string;
  outer_wall_material : option string;
  floor_material : option string;
  roof_material : option string;
  rooms_occupied : option Z;
  main_lighting_source : option string;
  main_drinking_water_source : option string;
  toilet_facility_type : option string
}.
End HousingUpdate.

Module EconomicActivityCreate.
Record t := {
  individual_id : Z;
  engaged_in_economic_activity : option YesNo;
  occupation_description : option string;
  occupation_code : option string;
  workplace_name : option string;
  employment_status : option string;
  employment_sector : option string;
  owns_mobile_phone : option YesNo;
  uses_internet : option YesNo
}.
End EconomicActivityCreate.

(** [x.value if x else dflt] *)
Definition value_or {E} (value : E -> string) (o : option E) (dflt : pyval) : pyval :=
  if truthy_enum value o then of_opt_str (value <$> o) else dflt.

(** [x or dflt] for an optional integer *)
Definition int_or (o : option Z) (dflt : Z) : pyval :=
  if truthy_int o then of_opt_int o else PInt dflt.

(** ** Statements: SQL text with named bind values *)

(** [" AND ".join(l)] and friends *)
Definition join (sep : string) (l : list string) : string := String.concat sep l.

(** *** [CensusService.get_geographical_info] *)

Definition geographical_info_select : string :=
"
        SELECT geo_id, region_name, district_name, district_type, sub_district,
               locality_name, detailed_address, contact_phone_1, contact_phone_2,
               date_created, created_by
        FROM GEOGRAPHICAL_INFO
        ".

Definition get_geographical_info_query (geo_id : option Z) : string * gmap string pyval :=
  let sql := geographical_info_select in
  let params : gmap string pyval := ∅ in
  let '(sql, params) :=
    if truthy_int geo_id
    then (sql ++ " WHERE geo_id = :geo_id", <["geo_id" := of_opt_int geo_id]> params)
    else (sql, params) in
  let sql := sql ++ " ORDER BY region_name, district_name" in
  (sql, params).

(** *** [CensusService.get_households] *)

Definition households_select : string :=
"
        SELECT h.household_id, h.geo_id, h.household_number_in_structure,
               h.type_of_residence, h.total_members, h.total_males, h.total_females,
               h.housing_unit_status, h.interview_date_started, h.interview_date_completed,
               g.region_name, g.district_name, g.locality_name
        FROM HOUSEHOLD h
        JOIN GEOGRAPHICAL_INFO g ON h.geo_id = g.geo_id
        WHERE 1=1
        ".

Definition get_households_query (household_id geo_id : option Z) : string * gmap string pyval :=
  let sql := households_select in
  let params : gmap string pyval := ∅ in
  let '(sql, params) :=
    if truthy_int household_id
    then (sql ++ " AND h.household_id = :household_id",
          <["household_id" := of_opt_int household_id]> params)
    else (sql, params) in
  let '(sql, params) :=
    if truthy_int geo_id
    then (sql ++ " AND h.geo_id = :geo_id", <["geo_id" := of_opt_int geo_id]> params)
    else (sql, params) in
  let sql := sql ++ " ORDER BY g.region_name, g.district_name, h.household_id" in
  (sql, params).

(** *** [CensusService.get_individuals] *)

Definition get_individuals_query (individual_id household_id limit : option Z)
  : string * gmap string pyval :=
  let base_sql := "SELECT * FROM V_INDIVIDUAL_DETAILS" in
  let filters : list string := [] in
  let params : gmap string pyval := ∅ in
  let '(filters, params) :=
    if is_not_None individual_id
    then ((filters ++ ["INDIVIDUAL_ID = :individual_id"])%list,
          <["individual_id" := of_opt_int individual_id]> params)
    else (filters, params) in
  let '(filters, params) :=
    if is_not_None household_id
    then ((filters ++ ["HOUSEHOLD_ID = :household_id"])%list,
          <["household_id" := of_opt_int household_id]> params)
    else (filters, params) in
  let base_sql :=
    match filters with
    | [] => base_sql
    | _ => base_sql ++ " WHERE " ++ join " AND " filters
    end in
  let base_sql := base_sql ++ " ORDER BY INDIVIDUAL_ID DESC" in
  let '(base_sql, params) :=
    if is_not_None limit
    then (base_sql ++ " FETCH FIRST :limit ROWS ONLY", <["limit" := of_opt_int limit]> params)
    else (base_sql, params) in
  (base_sql, params).

(** *** [CensusService.search_individuals]: the WHERE clause *)

(** [where_conditions.append(cond); params[key] = value] *)
Definition add_condition (cond key : string) (value : pyval)
    (st : list string * gmap string pyval) : list string * gmap string pyval :=
  ((st.1 ++ [cond])%list, <[key := value]> st.2).

Definition search_conditions (filters : SearchFilters.t) : list string * gmap string pyval :=
  let st : list string * gmap string pyval := ([], ∅) in
  let st :=
    if truthy_str (SearchFilters.region_name filters)
    then add_condition "g.region_name = :region_name" "region_name"
           (of_opt_str (SearchFilters.region_name filters)) st
    else st in
  let st :=
    if truthy_str (SearchFilters.district_name filters)
    then add_condition "g.district_name = :district_name" "district_name"
           (of_opt_str (SearchFilters.district_name filters)) st
    else st in
  let st :=
    if truthy_enum Sex_value (SearchFilters.sex filters)
    then add_condition "i.sex = :sex" "sex"
           (of_opt_str (Sex_value <$> SearchFilters.sex filters)) st
    else st in
  let st :=
    if is_not_None (SearchFilters.min_age filters)
    then add_condition "i.age >= :min_age" "min_age"
           (of_opt_int (SearchFilters.min_age filters)) st
    else st in
  let st :=
    if is_not_None (SearchFilters.max_age filters)
    then add_condition "i.age <= :max_age" "max_age"
           (of_opt_int (SearchFilters.max_age filters)) st
    else st in
  let st :=
    if truthy_str (SearchFilters.marital_status filters)
    then add_condition "i.marital_status = :marital_status" "marital_status"
           (of_opt_str (SearchFilters.marital_status filters)) st
    else st in
  let st :=
    if truthy_str (SearchFilters.education_level filters)
    then add_condition "i.highest_education_level = :education_level" "education_level"
           (of_opt_str (SearchFilters.education_level filters)) st
    else st in
  st.

Definition where_conditions (filters : SearchFilters.t) : list string :=
  (search_conditions filters).1.

Definition filter_params (filters : SearchFilters.t) : gmap string pyval :=
  (search_conditions filters).2.

(** [" AND ".join(where_conditions) if where_conditions else "1=1"] *)
Definition where_clause (filters : SearchFilters.t) : string :=
  match where_conditions filters with
  | [] => "1=1"
  | conds => join " AND " conds
  end.

Definition count_sql (where_clause : string) : string :=
"
        SELECT COUNT(*) as total_count
        FROM INDIVIDUAL i
        JOIN HOUSEHOLD h ON i.household_id = h.household_id
        JOIN GEOGRAPHICAL_INFO g ON h.geo_id = g.geo_id
        WHERE " ++ where_clause ++ "
        ".

Definition data_sql (where_clause : string) : string :=
"
        SELECT * FROM (
            SELECT i.*, g.region_name, g.district_name, g.locality_name,
                   ROW_NUMBER() OVER (ORDER BY i.individual_id) as rn
            FROM INDIVIDUAL i
            JOIN HOUSEHOLD h ON i.household_id = h.household_id
            JOIN GEOGRAPHICAL_INFO g ON h.geo_id = g.geo_id
            WHERE " ++ where_clause ++ "
        ) WHERE rn BETWEEN :start_row AND :end_row
        ".

(** The count statement is issued with the filter bindings only. *)
Definition count_query (filters : SearchFilters.t) : string * gmap string pyval :=
  (count_sql (where_clause filters), filter_params filters).

(** [params['start_row'] = pagination.offset + 1;
     params['end_row'] = pagination.offset + pagination.size] on the same dict. *)
Definition data_query (filters : SearchFilters.t) (pagination : PaginationParams.t)
  : string * gmap string pyval :=
  let params := filter_params filters in
  let params := <["start_row" := PInt (PaginationParams.offset pagination + 1)]> params in
  let params :=
    <["end_row" := PInt (PaginationParams.offset pagination
                         + PaginationParams.size pagination)]> params in
  (data_sql (where_clause filters), params).


(** ** Exceptions *)

Inductive exn :=
| DatabaseError (msg : string)      (* oracledb.DatabaseError and its subclasses *)
| InterfaceError (msg : string)     (* an oracledb.Error that is not a DatabaseError *)
| AttributeError (msg : string)
| KeyError (key : string)
| TimeoutError                      (* the pool's checkout timeout *)
| TypeError (msg : string)
| ValidationError (msg : string)    (* a request parameter outside its declared bounds *)
| HTTPException (status : Z)
| KeyboardInterrupt.                (* a BaseException that is not an Exception *)

(** [except Exception] *)
Definition is_Exception (e : exn) : bool :=
  match e with KeyboardInterrupt => false | _ => true end.

(** [except oracledb.DatabaseError] *)
Definition is_DatabaseError (e : exn) : bool :=
  match e with DatabaseError _ => true | _ => false end.

(** ** The driver seen from the gateway *)

(** One positional argument of [cursor.callproc]: a value, or an output
    variable made by [cursor.var]. *)
Inductive arg :=
| Bind (v : pyval)
| OutVar (var : nat).

(** What the gateway asks of the driver, the engine and the logger, in order. *)
Inductive event :=
| Connect (c : nat)                 (* oracledb.connect of ORACLE_CONFIG *)
| Cursor (c : nat)                  (* connection.cursor() *)
| Var (c : nat) (var : nat)         (* cursor.var(...) *)
| Callproc (c : nat) (name : string) (args : list arg)
| Commit (c : nat)
| Rollback (c : nat)
| CursorClose (c : nat)
| Close (c : nat)
| Checkout                           (* engine.connect(): a connection from the pool *)
| Execute (sql : string) (params : gmap string pyval)
| Return                             (* the pooled connection goes back *)
| SessionNew (s : nat)               (* SessionLocal() *)
| SessionExecute (s : nat) (sql : string) (params : gmap string pyval)
| SessionCommit (s : nat)
| SessionRollback (s : nat)
| SessionClose (s : nat)
| LogError (prefix : string) (e : exn).

(** The result of a statement: rows as column-to-value records, or a row count
    ([result.returns_rows]). *)
Inductive result :=
| Rows (rows : list (gmap string pyval))
| Rowcount (n : Z).

(** The database and driver are outside the repository.  [raises] decides,
    from the call and the history, whether a call fails; [procedure] is what a
    stored procedure does to the data its transaction sees and what it writes
    to its output variables; [statement] answers a statement against the
    data; [stale] tells that a returned pooled connection is past its recycle
    age. *)
Record driver (D : Type) := {
  raises : event -> list event -> option exn;
  procedure : string -> list pyval -> D -> D * (exn + list pyval);
  statement : string -> gmap string pyval -> D -> exn + result;
  session_statement : string -> gmap string pyval -> D -> D * (exn + result);
  stale : list event -> bool
}.
Arguments raises {D}.
Arguments procedure {D}.
Arguments statement {D}.
Arguments session_statement {D}.
Arguments stale {D}.

(** [config/oracle_config.py], the pool settings with their defaults. *)
Record OracleSettings := {
  ORACLE_POOL_SIZE : Z;
  ORACLE_MAX_OVERFLOW : Z;
  ORACLE_POOL_TIMEOUT : Z;
  ORACLE_POOL_RECYCLE : Z
}.

Definition default_settings : OracleSettings :=
  {| ORACLE_POOL_SIZE := 5; ORACLE_MAX_OVERFLOW := 10;
     ORACLE_POOL_TIMEOUT := 30; ORACLE_POOL_RECYCLE := 3600 |}.

(** The state the gateway acts on: the committed data, the open direct
    connections and sessions with the data their transaction sees, the output
    variables, the pool's counters, and the history (newest event first). *)
Record world (D : Type) := World {
  database : D;
  txn : gmap nat D;
  sessions : gmap nat (bool * D);
  outvars : gmap nat pyval;
  checked_out : Z;
  idle : Z;
  fresh : nat;
  trace : list event
}.
Arguments World {D}.
Arguments database {D}.
Arguments txn {D}.
Arguments sessions {D}.
Arguments outvars {D}.
Arguments checked_out {D}.
Arguments idle {D}.
Arguments fresh {D}.
Arguments trace {D}.

Definition set_database {D} (d : D) (w : world D) : world D :=
  World d (txn w) (sessions w) (outvars w) (checked_out w) (idle w) (fresh w) (trace w).
Definition set_txn {D} (t : gmap nat D) (w : world D) : world D :=
  World (database w) t (sessions w) (outvars w) (checked_out w) (idle w) (fresh w) (trace w).
Definition set_sessions {D} (s : gmap nat (bool * D)) (w : world D) : world D :=
  World (database w) (txn w) s (outvars w) (checked_out w) (idle w) (fresh w) (trace w).
Definition set_outvars {D} (o : gmap nat pyval) (w : world D) : world D :=
  World (database w) (txn w) (sessions w) o (checked_out w) (idle w) (fresh w) (trace w).
Definition set_pool {D} (out idl : Z) (w : world D) : world D :=
  World (database w) (txn w) (sessions w) (outvars w) out idl (fresh w) (trace w).
Definition set_fresh {D} (n : nat) (w : world D) : world D :=
  World (database w) (txn w) (sessions w) (outvars w) (checked_out w) (idle w) n (trace w).
Definition record {D} (e : event) (w : world D) : world D :=
  World (database w) (txn w) (sessions w) (outvars w) (checked_out w) (idle w) (fresh w)
        (e :: trace w).

(** A world where nothing is open and nothing has happened. *)
Definition start {D} (d : D) : world D := World d ∅ ∅ ∅ 0 0 0%nat [].

(** ** Computations: state passing with exceptions *)

Definition M (D A : Type) : Type := world D -> (exn + A) * world D.

Definition ret {D A} (a : A) : M D A := fun w => (inr a, w).

Definition raise {D A} (e : exn) : M D A := fun w => (inl e, w).

(** A primitive step given directly as a state transformer. *)
Definition act {D A} (f : world D -> (exn + A) * world D) : M D A := f.

Definition bind {D A B} (m : M D A) (k : A -> M D B) : M D B :=
  fun w =>
    match m w with
    | (inr a, w1) => k a w1
    | (inl e, w1) => (inl e, w1)
    end.

#[global] Instance M_ret {D} : MRet (M D) := fun A => ret.
#[global] Instance M_bind {D} : MBind (M D) := fun A B k m => bind m k.

(** [try: body  except <handles> as e: handler e] *)
Definition try_except {D A} (body : M D A) (handles : exn -> bool) (handler : exn -> M D A)
  : M D A :=
  fun w =>
    match body w with
    | (inr a, w1) => (inr a, w1)
    | (inl e, w1) => if handles e then handler e w1 else (inl e, w1)
    end.

(** [try: body  finally: final]: [final] always runs; if it raises, its
    exception replaces the outcome of [body]. *)
Definition try_finally {D A} (body : M D A) (final : M D unit) : M D A :=
  fun w =>
    match body w with
    | (r, w1) =>
        match final w1 with
        | (inr _, w2) => (r, w2)
        | (inl e, w2) => (inl e, w2)
        end
    end.

Definition logger_error {D} (prefix : string) (e : exn) : M D unit :=
  fun w => (inr tt, record (LogError prefix e) w).

(** ** The driver's operations *)

Definition bound_values (args : list arg) : list pyval :=
  omap (fun a => match a with Bind v => Some v | OutVar _ => None end) args.

Definition out_variables (args : list arg) : list nat :=
  omap (fun a => match a with OutVar x => Some x | Bind _ => None end) args.

(** The procedure's outputs go to the output variables, in order. *)
Fixpoint assign (vars : list nat) (vals : list pyval) (o : gmap nat pyval) : gmap nat pyval :=
  match vars, vals with
  | x :: vars, v :: vals => assign vars vals (<[x := v]> o)
  | _, _ => o
  end.

Section Gateway.
Context {D : Type} (drv : driver D) (settings : OracleSettings).

(** A call is recorded, then fails if the driver says so. *)
Definition call (e : event) : M D unit :=
  fun w =>
    match raises drv e (trace w) with
    | Some x => (inl x, record e w)
    | None => (inr tt, record e w)
    end.

(** [oracledb.connect] with [ORACLE_CONFIG]: a new physical connection, whose
    transaction starts from the committed data. *)
Definition oracledb_connect : M D nat :=
  fun w =>
    let c := fresh w in
    match raises drv (Connect c) (trace w) with
    | Some x => (inl x, w)
    | None =>
        (inr c, set_txn (<[c := database w]> (txn w)) (set_fresh (S c) (record (Connect c) w)))
    end.

Definition connection_cursor (connection : nat) : M D nat :=
  call (Cursor connection);; mret connection.

Definition cursor_var (cursor : nat) : M D nat :=
  fun w =>
    let x := fresh w in
    match raises drv (Var cursor x) (trace w) with
    | Some e => (inl e, record (Var cursor x) w)
    | None =>
        (inr x, set_outvars (<[x := PNone]> (outvars w))
                  (set_fresh (S x) (record (Var cursor x) w)))
    end.

Definition var_getvalue (x : nat) : M D pyval :=
  fun w => (inr (default PNone (outvars w !! x)), w).

Definition cursor_callproc (cursor : nat) (name : string) (args : list arg) : M D unit :=
  call (Callproc cursor name args);;
  act (fun w =>
    match txn w !! cursor with
    | None => (inl (InterfaceError "not connected"), w)
    | Some d =>
        match procedure drv name (bound_values args) d with
        | (d', inl e) => (inl e, set_txn (<[cursor := d']> (txn w)) w)
        | (d', inr outs) =>
            (inr tt, set_outvars (assign (out_variables args) outs (outvars w))
                       (set_txn (<[cursor := d']> (txn w)) w))
        end
    end).

Definition cursor_close (cursor : nat) : M D unit := call (CursorClose cursor).

Definition connection_commit (connection : nat) : M D unit :=
  call (Commit connection);;
  act (fun w =>
    match txn w !! connection with
    | None => (inl (InterfaceError "not connected"), w)
    | Some d => (inr tt, set_database d w)
    end).

Definition connection_rollback (connection : nat) : M D unit :=
  call (Rollback connection);;
  act (fun w =>
    match txn w !! connection with
    | None => (inl (InterfaceError "not connected"), w)
    | Some _ => (inr tt, set_txn (<[connection := database w]> (txn w)) w)
    end).

(** Closing discards what the transaction has not committed. *)
Definition connection_close (connection : nat) : M D unit :=
  call (Close connection);;
  act (fun w =>
    match txn w !! connection with
    | None => (inl (InterfaceError "not connected"), w)
    | Some _ => (inr tt, set_txn (delete connection (txn w)) w)
    end).

(** *** The engine's pool *)

(** Modelled from the spec: the pool itself is the engine's [QueuePool], which
    the repository configures with [pool_size] and [max_overflow] and does
    not implement.  Acquire takes an idle connection, or opens one while
    fewer than max size plus max overflow exist, and otherwise fails with the
    pool's timeout. *)
Definition pool_acquire : M D unit :=
  call Checkout;;
  act (fun w =>
    if 0 <? idle w then (inr tt, set_pool (checked_out w + 1) (idle w - 1) w)
    else if checked_out w + idle w <? ORACLE_POOL_SIZE settings + ORACLE_MAX_OVERFLOW settings
         then (inr tt, set_pool (checked_out w + 1) (idle w) w)
         else (inl TimeoutError, w)).

(** Modelled from the spec: release returns the connection to the idle set
    unless it is past its recycle age or the idle set is full, in which case
    it is closed. *)
Definition pool_release : M D unit :=
  fun w =>
    let w1 := record Return w in
    if stale drv (trace w) || negb (idle w <? ORACLE_POOL_SIZE settings)
    then (inr tt, set_pool (checked_out w - 1) (idle w) w1)
    else (inr tt, set_pool (checked_out w - 1) (idle w + 1) w1).

(** *** [OracleConnectionManager.execute_raw_sql] *)

Definition execute_raw_sql (sql : string) (params : gmap string pyval)
  : M D (list (gmap string pyval)) :=
  try_except
    (pool_acquire;;
     try_finally
       (call (Execute sql params);;
        act (fun w =>
          match statement drv sql params (database w) with
          | inl e => (inl e, w)
          | inr (Rows rows) => (inr rows, w)
          | inr (Rowcount n) => (inr [{["affected_rows" := PInt n]}], w)
          end))
       pool_release)
    is_Exception
    (fun e => logger_error "Error executing raw SQL" e;; raise e).

(** *** Sessions of the session factory *)

(** [OracleConnectionManager.get_session]; the manager exists only once its
    engine and session factory are initialised. *)
Definition get_session : M D nat :=
  fun w =>
    let s := fresh w in
    match raises drv (SessionNew s) (trace w) with
    | Some e => (inl e, w)
    | None =>
        (inr s, set_sessions (<[s := (false, database w)]> (sessions w))
                  (set_fresh (S s) (record (SessionNew s) w)))
    end.

(** A session takes its connection from the pool when it first executes. *)
Definition session_execute (session : nat) (sql : string) (params : gmap string pyval)
  : M D result :=
  call (SessionExecute session sql params);;
  act (fun w =>
    match (sessions w !! session : option (bool * D)) with
    | None => (inl (InterfaceError "session is closed"), w)
    | Some (held, d) =>
        let run (w : world D) : (exn + result) * world D :=
          match session_statement drv sql params d with
          | (d', r) => (r, set_sessions (<[session := (true, d')]> (sessions w)) w)
          end in
        if held then run w
        else match pool_acquire w with
             | (inl e, w1) => (inl e, w1)
             | (inr _, w1) => run w1
             end
    end).

Definition session_commit (session : nat) : M D unit :=
  call (SessionCommit session);;
  act (fun w =>
    match (sessions w !! session : option (bool * D)) with
    | None => (inl (InterfaceError "session is closed"), w)
    | Some (_, d) => (inr tt, set_database d w)
    end).

Definition session_rollback (session : nat) : M D unit :=
  call (SessionRollback session);;
  act (fun w =>
    match (sessions w !! session : option (bool * D)) with
    | None => (inl (InterfaceError "session is closed"), w)
    | Some (held, _) =>
        (inr tt, set_sessions (<[session := (held, database w)]> (sessions w)) w)
    end).

Definition session_close (session : nat) : M D unit :=
  call (SessionClose session);;
  act (fun w =>
    match (sessions w !! session : option (bool * D)) with
    | None => (inr tt, w)
    | Some (held, _) =>
        let w1 := set_sessions (delete session (sessions w)) w in
        if held then pool_release w1 else (inr tt, w1)
    end).

(** *** [OracleConnectionManager.get_session_context] *)

(** [with self.get_session_context() as session: body session] *)
Definition get_session_context {A} (body : nat -> M D A) : M D A :=
  session ← get_session;
  try_finally
    (try_except
       (a ← body session;
        session_commit session;;
        mret a)
       is_Exception
       (fun e =>
          session_rollback session;;
          logger_error "Database session error" e;;
          raise e))
    (session_close session).

(** *** [DirectOracleConnection.get_connection] *)

(** [if connection: action connection] *)
Definition if_connection (connection : option nat) (action : nat -> M D unit) : M D unit :=
  match connection with
  | Some c => action c
  | None => mret tt
  end.

(** [with DirectOracleConnection.get_connection() as connection: body connection].
    The first component is the [try] block where it ends, together with
    the value the variable [connection] then has. *)
Definition get_connection {A} (body : nat -> M D A) : M D A :=
  fun w =>
    let '(outcome, connection, w1) :=
      match oracledb_connect w with
      | (inl e, w1) => (inl e, None, w1)
      | (inr c, w1) => let '(r, w2) := body c w1 in (r, Some c, w2)
      end in
    try_finally
      (try_except
         (act (fun w => (outcome, w)))
         is_Exception
         (fun e =>
            if_connection connection connection_rollback;;
            logger_error "Direct Oracle connection error" e;;
            raise e))
      (if_connection connection connection_close)
      w1.


(** ** [CensusService]: operations that call a stored procedure *)

(** Reading an attribute the model does not declare. *)
Definition missing_attribute (model attribute : string) : M D pyval :=
  raise (AttributeError (model ++ " object has no attribute " ++ attribute)).

Definition create_geographical_info (geo_data : GeographicalInfoCreate.t) : M D pyval :=
  get_connection (fun connection =>
    cursor ← connection_cursor connection;
    geo_id ← cursor_var cursor;
    try_finally
      (cursor_callproc cursor "SP_INSERT_GEOGRAPHICAL_INFO" [
         Bind (PStr (GeographicalInfoCreate.region_name geo_data));
         Bind (PStr (GeographicalInfoCreate.district_name geo_data));
         Bind (of_opt_str (GeographicalInfoCreate.district_type geo_data));
         Bind (of_opt_str (GeographicalInfoCreate.sub_district geo_data));
         Bind (of_opt_str (GeographicalInfoCreate.locality_name geo_data));
         Bind (of_opt_str (GeographicalInfoCreate.nhis_ecg_vra_number geo_data));
         Bind (of_opt_str (GeographicalInfoCreate.detailed_address geo_data));
         Bind (of_opt_str (GeographicalInfoCreate.contact_phone_1 geo_data));
         Bind (of_opt_str (GeographicalInfoCreate.contact_phone_2 geo_data));
         Bind (of_opt_str (GeographicalInfoCreate.enumeration_area_code geo_data));
         Bind (of_opt_str (GeographicalInfoCreate.ea_type geo_data));
         Bind (of_opt_str (GeographicalInfoCreate.locality_code geo_data));
         Bind (of_opt_str (GeographicalInfoCreate.structure_number geo_data));
         OutVar geo_id
       ];;
       connection_commit connection;;
       var_getvalue geo_id)
      (cursor_close cursor)).

(** The argument list reads [geo_data.sub_district] and
    [geo_data.locality_name], which [GeographicalInfoUpdate] does not have:
    building the list raises inside the [try]. *)
Definition update_geographical_info (geo_id : Z) (geo_data : GeographicalInfoUpdate.t)
  : M D bool :=
  get_connection (fun connection =>
    cursor ← connection_cursor connection;
    try_finally
      (try_except
         (sub_district ← missing_attribute "GeographicalInfoUpdate" "sub_district";
          locality_name ← missing_attribute "GeographicalInfoUpdate" "locality_name";
          cursor_callproc cursor "SP_UPDATE_GEOGRAPHICAL_INFO" [
            Bind (PInt geo_id);
            Bind (of_opt_str (GeographicalInfoUpdate.region_name geo_data));
            Bind (of_opt_str (GeographicalInfoUpdate.district_name geo_data));
            Bind (of_opt_str (GeographicalInfoUpdate.district_type geo_data));
            Bind sub_district;
            Bind locality_name;
            Bind (of_opt_str (GeographicalInfoUpdate.detailed_address geo_data));
            Bind (of_opt_str (GeographicalInfoUpdate.contact_phone_1 geo_data));
            Bind (of_opt_str (GeographicalInfoUpdate.contact_phone_2 geo_data))
          ];;
          connection_commit connection;;
          mret true)
         is_Exception
         (fun e => logger_error "Error updating geographical info" e;; mret false))
      (cursor_close cursor)).

Definition delete_geographical_info (geo_id : Z) : M D bool :=
  get_connection (fun connection =>
    cursor ← connection_cursor connection;
    try_finally
      (try_except
         (cursor_callproc cursor "SP_DELETE_GEOGRAPHICAL_INFO" [Bind (PInt geo_id)];;
          connection_commit connection;;
          mret true)
         is_Exception
         (fun e => logger_error "Error deleting geographical info" e;; mret false))
      (cursor_close cursor)).

Definition create_household (household_data : HouseholdCreate.t) : M D pyval :=
  get_connection (fun connection =>
    cursor ← connection_cursor connection;
    household_id ← cursor_var cursor;
    try_finally
      (cursor_callproc cursor "SP_INSERT_HOUSEHOLD" [
         Bind (PInt (HouseholdCreate.geo_id household_data));
         Bind (of_opt_str (HouseholdCreate.household_number_in_structure household_data));
         Bind (of_opt_str (HouseholdCreate.type_of_residence household_data));
         Bind (of_opt_date (HouseholdCreate.interview_date_started household_data));
         Bind (of_opt_date (HouseholdCreate.interview_date_completed household_data));
         Bind (int_or (HouseholdCreate.total_visits household_data) 1);
         Bind (of_opt_str (HouseholdCreate.form_number household_data));
         Bind (value_or HousingUnitStatus_value
                 (HouseholdCreate.housing_unit_status household_data) (PStr "OCCUPIED"));
         OutVar household_id
       ];;
       connection_commit connection;;
       var_getvalue household_id)
      (cursor_close cursor)).

Definition update_household (household_id : Z) (household_data : HouseholdUpdate.t)
  : M D bool :=
  get_connection (fun connection =>
    cursor ← connection_cursor connection;
    try_finally
      (try_except
         (cursor_callproc cursor "SP_UPDATE_HOUSEHOLD" [
            Bind (PInt household_id);
            Bind (of_opt_str (HouseholdUpdate.type_of_residence household_data));
            Bind (of_opt_date (HouseholdUpdate.interview_date_completed household_data));
            Bind (of_opt_int (HouseholdUpdate.total_visits household_data));
            Bind (value_or HousingUnitStatus_value
                    (HouseholdUpdate.housing_unit_status household_data) PNone)
          ];;
          connection_commit connection;;
          mret true)
         is_Exception
         (fun e => logger_error "Error updating household" e;; mret false))
      (cursor_close cursor)).

Definition delete_household (household_id : Z) : M D bool :=
  get_connection (fun connection =>
    cursor ← connection_cursor connection;
    try_finally
      (try_except
         (cursor_callproc cursor "SP_DELETE_HOUSEHOLD" [Bind (PInt household_id)];;
          connection_commit connection;;
          mret true)
         is_Exception
         (fun e => logger_error "Error deleting household" e;; mret false))
      (cursor_close cursor)).

Definition create_individual (individual_data : IndividualCreate.t) : M D pyval :=
  get_connection (fun connection =>
    cursor ← connection_cursor connection;
    individual_id ← cursor_var cursor;
    try_finally
      (cursor_callproc cursor "SP_INSERT_INDIVIDUAL" [
         Bind (PInt (IndividualCreate.household_id individual_data));
         Bind (of_opt_int (IndividualCreate.person_line_number individual_data));
         Bind (PStr (IndividualCreate.full_name individual_data));
         Bind (of_opt_str (IndividualCreate.relationship_to_head individual_data));
         Bind (value_or Sex_value (IndividualCreate.sex individual_data) PNone);
         Bind (of_opt_date (IndividualCreate.date_of_birth individual_data));
         Bind (of_opt_int (IndividualCreate.age individual_data));
         Bind (of_opt_str (IndividualCreate.nationality individual_data));
         Bind (of_opt_str (IndividualCreate.ethnicity individual_data));
         Bind (of_opt_str (IndividualCreate.religion individual_data));
         Bind (of_opt_str (IndividualCreate.marital_status individual_data));
         Bind (of_opt_str (IndividualCreate.highest_education_level individual_data));
         Bind (value_or CensusNightStatus_value
                 (IndividualCreate.status_on_census_night individual_data) (PStr "PRESENT"));
         OutVar individual_id
       ];;
       connection_commit connection;;
       var_getvalue individual_id)
      (cursor_close cursor)).

Definition update_individual (individual_id : Z) (individual_data : IndividualUpdate.t)
  : M D bool :=
  get_connection (fun connection =>
    cursor ← connection_cursor connection;
    try_finally
      (try_except
         (cursor_callproc cursor "SP_UPDATE_INDIVIDUAL" [
            Bind (PInt individual_id);
            Bind (of_opt_str (IndividualUpdate.full_name individual_data));
            Bind (of_opt_str (IndividualUpdate.relationship_to_head individual_data));
            Bind (value_or Sex_value (IndividualUpdate.sex individual_data) PNone);
            Bind (of_opt_int (IndividualUpdate.age individual_data));
            Bind (of_opt_str (IndividualUpdate.nationality individual_data));
            Bind (of_opt_str (IndividualUpdate.ethnicity individual_data));
            Bind (of_opt_str (IndividualUpdate.religion individual_data));
            Bind (of_opt_str (IndividualUpdate.marital_status individual_data));
            Bind (of_opt_str (IndividualUpdate.highest_education_level individual_data))
          ];;
          connection_commit connection;;
          mret true)
         is_Exception
         (fun e => logger_error "Error updating individual" e;; mret false))
      (cursor_close cursor)).

(** No commit, no [finally] closing the cursor, and only
    [oracledb.DatabaseError] is handled. *)
Definition delete_individual (individual_id : Z) : M D pyval :=
  get_connection (fun connection =>
    cursor ← connection_cursor connection;
    success ← cursor_var cursor;
    try_except
      (cursor_callproc cursor "SP_DELETE_INDIVIDUAL" [Bind (PInt individual_id); OutVar success];;
       var_getvalue success)
      is_DatabaseError
      (fun e => logger_error "Error deleting individual" e;; mret (PBool false))).

Definition create_housing (housing_data : HousingCreate.t) : M D pyval :=
  get_connection (fun connection =>
    cursor ← connection_cursor connection;
    housing_id ← cursor_var cursor;
    try_finally
      (cursor_callproc cursor "SP_INSERT_HOUSING" [
         Bind (PInt (HousingCreate.household_id housing_data));
         Bind (of_opt_str (HousingCreate.dwelling_type housing_data));
         Bind (of_opt_str (HousingCreate.outer_wall_material housing_data));
         Bind (of_opt_str (HousingCreate.floor_material housing_data));
         Bind (of_opt_str (HousingCreate.roof_material housing_data));
         Bind (of_opt_int (HousingCreate.rooms_occupied housing_data));
         Bind (of_opt_int (HousingCreate.rooms_for_sleeping housing_data));
         Bind (of_opt_str (HousingCreate.main_lighting_source housing_data));
         Bind (of_opt_str (HousingCreate.main_drinking_water_source housing_data));
         Bind (of_opt_str (HousingCreate.toilet_facility_type housing_data));
         OutVar housing_id
       ];;
       connection_commit connection;;
       var_getvalue housing_id)
      (cursor_close cursor)).

Definition update_housing (housing_id : Z) (housing_data : HousingUpdate.t) : M D bool :=
  get_connection (fun connection =>
    cursor ← connection_cursor connection;
    try_finally
      (try_except
         (cursor_callproc cursor "SP_UPDATE_HOUSING" [
            Bind (PInt housing_id);
            Bind (of_opt_str (HousingUpdate.dwelling_type housing_data));
            Bind (of_opt_str (HousingUpdate.outer_wall_material housing_data));
            Bind (of_opt_str (HousingUpdate.floor_material housing_data));
            Bind (of_opt_str (HousingUpdate.roof_material housing_data));
            Bind (of_opt_int (HousingUpdate.rooms_occupied housing_data));
            Bind (of_opt_str (HousingUpdate.main_lighting_source housing_data));
            Bind (of_opt_str (HousingUpdate.main_drinking_water_source housing_data));
            Bind (of_opt_str (HousingUpdate.toilet_facility_type housing_data))
          ];;
          connection_commit connection;;
          mret true)
         is_Exception
         (fun e => logger_error "Error updating housing" e;; mret false))
      (cursor_close cursor)).

Definition delete_housing (housing_id : Z) : M D bool :=
  get_connection (fun connection =>
    cursor ← connection_cursor connection;
    try_finally
      (try_except
         (cursor_callproc cursor "SP_DELETE_HOUSING" [Bind (PInt housing_id)];;
          connection_commit connection;;
          mret true)
         is_Exception
         (fun e => logger_error "Error deleting housing" e;; mret false))
      (cursor_close cursor)).

Definition create_economic_activity (economic_data : EconomicActivityCreate.t) : M D pyval :=
  get_connection (fun connection =>
    cursor ← connection_cursor connection;
    economic_id ← cursor_var cursor;
    try_finally
      (cursor_callproc cursor "SP_INSERT_ECONOMIC_ACTIVITY" [
         Bind (PInt (EconomicActivityCreate.individual_id economic_data));
         Bind (value_or YesNo_value
                 (EconomicActivityCreate.engaged_in_economic_activity economic_data) (PStr "N"));
         Bind (of_opt_str (EconomicActivityCreate.occupation_description economic_data));
         Bind (of_opt_str (EconomicActivityCreate.occupation_code economic_data));
         Bind (of_opt_str (EconomicActivityCreate.workplace_name economic_data));
         Bind (of_opt_str (EconomicActivityCreate.employment_status economic_data));
         Bind (of_opt_str (EconomicActivityCreate.employment_sector economic_data));
         Bind (value_or YesNo_value
                 (EconomicActivityCreate.owns_mobile_phone economic_data) (PStr "N"));
         Bind (value_or YesNo_value
                 (EconomicActivityCreate.uses_internet economic_data) (PStr "N"));
         OutVar economic_id
       ];;
       connection_commit connection;;
       var_getvalue economic_id)
      (cursor_close cursor)).

(** ** [CensusService]: reads through [execute_raw_sql] *)



Definition get_individuals (individual_id household_id limit : option Z)
  : M D (list (gmap string pyval)) :=
  let '(base_sql, params) := get_individuals_query individual_id household_id limit in
  execute_raw_sql base_sql params.

(** [count_result[0]['TOTAL_COUNT'] if count_result else 0] *)
Definition first_total_count (count_result : list (gmap string pyval)) : M D pyval :=
  match count_result with
  | [] => mret (PInt 0)
  | row :: _ =>
      match row !! "TOTAL_COUNT" with
      | Some v => mret v
      | None => raise (KeyError "TOTAL_COUNT")
      end
  end.

Definition search_individuals (filters : SearchFilters.t) (pagination : PaginationParams.t)
  : M D (list (gmap string pyval) * pyval) :=
  let '(count_sql, params) := count_query filters in
  count_result ← execute_raw_sql count_sql params;
  total_count ← first_total_count count_result;
  let '(data_sql, params) := data_query filters pagination in
  data_result ← execute_raw_sql data_sql params;
  mret (data_result, total_count).

(** *** [OracleConnectionManager.call_procedure] *)

(** [params] keeps the order of the caller's dict, which fixes the order of
    the placeholders. *)
Definition call_procedure (procedure_name : string) (params : list (string * pyval))
  : M D (option (list (gmap string pyval))) :=
  try_except
    (get_session_context (fun session =>
       let param_list := map (fun kv => ":" ++ kv.1) params in
       let sql := "CALL " ++ procedure_name ++ "(" ++ join ", " param_list ++ ")" in
       result ← session_execute session sql (list_to_map params);
       mret (match result with Rows rows => Some rows | Rowcount _ => None end)))
    is_Exception
    (fun e => logger_error ("Error calling procedure " ++ procedure_name) e;; raise e).

(** ** The search route of [census_routes.py] *)



(** ** The create, update and delete operations as one family *)

Inductive operation :=
| CreateGeographicalInfo (geo_data : GeographicalInfoCreate.t)
| UpdateGeographicalInfo (geo_id : Z) (geo_data : GeographicalInfoUpdate.t)
| DeleteGeographicalInfo (geo_id : Z)
| CreateHousehold (household_data : HouseholdCreate.t)
| UpdateHousehold (household_id : Z) (household_data : HouseholdUpdate.t)
| DeleteHousehold (household_id : Z)
| CreateIndividual (individual_data : IndividualCreate.t)
| UpdateIndividual (individual_id : Z) (individual_data : IndividualUpdate.t)
| DeleteIndividual (individual_id : Z)
| CreateHousing (housing_data : HousingCreate.t)
| UpdateHousing (housing_id : Z) (housing_data : HousingUpdate.t)
| DeleteHousing (housing_id : Z)
| CreateEconomicActivity (economic_data : EconomicActivityCreate.t).

(** A flag as the Python value it is. *)
Definition flag (m : M D bool) : M D pyval := b ← m; mret (PBool b).

Definition perform (op : operation) : M D pyval :=
  match op with
  | CreateGeographicalInfo d => create_geographical_info d
  | UpdateGeographicalInfo id d => flag (update_geographical_info id d)
  | DeleteGeographicalInfo id => flag (delete_geographical_info id)
  | CreateHousehold d => create_household d
  | UpdateHousehold id d => flag (update_household id d)
  | DeleteHousehold id => flag (delete_household id)
  | CreateIndividual d => create_individual d
  | UpdateIndividual id d => flag (update_individual id d)
  | DeleteIndividual id => delete_individual id
  | CreateHousing d => create_housing d
  | UpdateHousing id d => flag (update_housing id d)
  | DeleteHousing id => flag (delete_housing id)
  | CreateEconomicActivity d => create_economic_activity d
  end.

End Gateway.

(** ** A reference database for the two statements of the search

    The statements are answered from their text: the text is split into words,
    the shape of the statement is recognised, the conditions after [WHERE] are
    read as [column operator :bind] joined by [AND], and the statement is
    evaluated over three tables with the usual meaning of inner joins,
    comparisons (a null never compares true), [COUNT], [ROW_NUMBER] over an
    ascending order, and [BETWEEN]. *)

Definition is_space (c : ascii) : bool :=
  (c =? " ")%char || (c =? "010")%char.

Definition at_boundary (s : string) : bool :=
  match s with
  | EmptyString => true
  | String c _ => is_space c
  end.

(** The words of a text, separated by blanks and line ends. *)
Fixpoint words (s : string) : list string :=
  match s with
  | EmptyString => []
  | String c s' =>
      if is_space c then words s'
      else if at_boundary s' then String c EmptyString :: words s'
      else match words s' with
           | w :: ws => String c w :: ws
           | [] => [String c EmptyString]
           end
  end.


(** A row of [INDIVIDUAL i JOIN HOUSEHOLD h JOIN GEOGRAPHICAL_INFO g]. *)
Record joined := { row_i : gmap string pyval; row_h : gmap string pyval; row_g : gmap string pyval }.

Definition field_of (r : gmap string pyval) (column : string) : pyval :=
  default PNone (r !! column).

Definition sql_equal (a b : pyval) : bool :=
  match a, b with
  | PInt x, PInt y => x =? y
  | PStr x, PStr y => String.eqb x y
  | _, _ => false
  end.

Definition sql_le (a b : pyval) : bool :=
  match a, b with
  | PInt x, PInt y => x <=? y
  | _, _ => false
  end.


(** The columns the conditions of the search name. *)
Definition column_value (column : string) (r : joined) : option pyval :=
  if decide (column = "g.region_name") then Some (field_of (row_g r) "REGION_NAME")
  else if decide (column = "g.district_name") then Some (field_of (row_g r) "DISTRICT_NAME")
  else if decide (column = "i.sex") then Some (field_of (row_i r) "SEX")
  else if decide (column = "i.age") then Some (field_of (row_i r) "AGE")
  else if decide (column = "i.marital_status") then Some (field_of (row_i r) "MARITAL_STATUS")
  else if decide (column = "i.highest_education_level")
       then Some (field_of (row_i r) "HIGHEST_EDUCATION_LEVEL")
  else None.

Inductive comparison_op := OpEq | OpGe | OpLe.

Definition parse_op (t : string) : option comparison_op :=
  if decide (t = "=") then Some OpEq
  else if decide (t = ">=") then Some OpGe
  else if decide (t = "<=") then Some OpLe
  else None.

Definition parse_bind (t : string) : option string :=
  match t with
  | String ":" name => Some name
  | _ => None
  end.

Record condition := { cond_column : string; cond_op : comparison_op; cond_bind : string }.

(** [column op :bind (AND column op :bind)*] *)
Fixpoint parse_conditions (ts : list string) : option (list condition) :=
  match ts with
  | c :: o :: b :: rest =>
      op ← parse_op o;
      name ← parse_bind b;
      let cond := {| cond_column := c; cond_op := op; cond_bind := name |} in
      match rest with
      | [] => Some [cond]
      | t :: rest' =>
          if decide (t = "AND") then (cond ::.) <$> parse_conditions rest' else None
      end
  | _ => None
  end.

Definition parse_where (ts : list string) : option (list condition) :=
  if decide (ts = ["1=1"]) then Some [] else parse_conditions ts.

Definition eval_condition (params : gmap string pyval) (r : joined) (c : condition)
  : exn + bool :=
  match params !! cond_bind c with
  | None => inl (DatabaseError "ORA-01008: not all variables bound")
  | Some v =>
      match column_value (cond_column c) r with
      | None => inl (DatabaseError "ORA-00904: invalid identifier")
      | Some x =>
          inr (match cond_op c with
               | OpEq => sql_equal x v
               | OpGe => sql_le v x
               | OpLe => sql_le x v
               end)
      end
  end.

Fixpoint eval_conditions (params : gmap string pyval) (r : joined) (cs : list condition)
  : exn + bool :=
  match cs with
  | [] => inr true
  | c :: cs =>
      match eval_condition params r c with
      | inl e => inl e
      | inr b =>
          match eval_conditions params r cs with
          | inl e => inl e
          | inr bs => inr (b && bs)
          end
      end
  end.









Definition count_head : list string :=
  ["SELECT"; "COUNT(*)"; "as"; "total_count";
   "FROM"; "INDIVIDUAL"; "i";
   "JOIN"; "HOUSEHOLD"; "h"; "ON"; "i.household_id"; "="; "h.household_id";
   "JOIN"; "GEOGRAPHICAL_INFO"; "g"; "ON"; "h.geo_id"; "="; "g.geo_id";
   "WHERE"].

Definition data_head : list string :=
  ["SELECT"; "*"; "FROM"; "(";
   "SELECT"; "i.*,"; "g.region_name,"; "g.district_name,"; "g.locality_name,";
   "ROW_NUMBER()"; "OVER"; "(ORDER"; "BY"; "i.individual_id)"; "as"; "rn";
   "FROM"; "INDIVIDUAL"; "i";
   "JOIN"; "HOUSEHOLD"; "h"; "ON"; "i.household_id"; "="; "h.household_id";
   "JOIN"; "GEOGRAPHICAL_INFO"; "g"; "ON"; "h.geo_id"; "="; "g.geo_id";
   "WHERE"].

Definition data_tail : list string :=
  [")"; "WHERE"; "rn"; "BETWEEN"; ":start_row"; "AND"; ":end_row"].








(** The procedure an operation names. *)
Definition procedure_name (op : operation) : string :=
  match op with
  | CreateGeographicalInfo _ => "SP_INSERT_GEOGRAPHICAL_INFO"
  | UpdateGeographicalInfo _ _ => "SP_UPDATE_GEOGRAPHICAL_INFO"
  | DeleteGeographicalInfo _ => "SP_DELETE_GEOGRAPHICAL_INFO"
  | CreateHousehold _ => "SP_INSERT_HOUSEHOLD"
  | UpdateHousehold _ _ => "SP_UPDATE_HOUSEHOLD"
  | DeleteHousehold _ => "SP_DELETE_HOUSEHOLD"
  | CreateIndividual _ => "SP_INSERT_INDIVIDUAL"
  | UpdateIndividual _ _ => "SP_UPDATE_INDIVIDUAL"
  | DeleteIndividual _ => "SP_DELETE_INDIVIDUAL"
  | CreateHousing _ => "SP_INSERT_HOUSING"
  | UpdateHousing _ _ => "SP_UPDATE_HOUSING"
  | DeleteHousing _ => "SP_DELETE_HOUSING"
  | CreateEconomicActivity _ => "SP_INSERT_ECONOMIC_ACTIVITY"
  end.

Inductive operation_kind := Creates | ReturnsFlag | ReadsOutput.

(** The creates return the generated identifier; the updates and deletes
    return [True] or [False]; [delete_individual] returns what the procedure
    wrote to its output variable. *)
Definition kind_of (op : operation) : operation_kind :=
  match op with
  | CreateGeographicalInfo _ | CreateHousehold _ | CreateIndividual _
  | CreateHousing _ | CreateEconomicActivity _ => Creates
  | DeleteIndividual _ => ReadsOutput
  | _ => ReturnsFlag
  end.


(** ** Observations on histories *)

Definition calls (p : event -> bool) (evs : list event) : nat :=
  length (List.filter p evs).

Definition is_commit (e : event) : bool :=
  match e with Commit _ => true | _ => false end.

Definition is_rollback (e : event) : bool :=
  match e with Rollback _ => true | _ => false end.

Definition is_close (c : nat) (e : event) : bool :=
  match e with Close c' => Nat.eqb c c' | _ => false end.

Definition is_connect (e : event) : bool :=
  match e with Connect _ => true | _ => false end.

Definition is_checkout (e : event) : bool :=
  match e with Checkout => true | _ => false end.

Definition is_callproc (e : event) : bool :=
  match e with Callproc _ _ _ => true | _ => false end.

Definition is_log (e : event) : bool :=
  match e with LogError _ _ => true | _ => false end.

(** [logger.error] with the given prefix. *)
Definition logged (prefix : string) (e : event) : bool :=
  match e with LogError p _ => String.eqb p prefix | _ => false end.

Definition is_session_commit (s : nat) (e : event) : bool :=
  match e with SessionCommit s' => Nat.eqb s s' | _ => false end.

Definition is_session_rollback (s : nat) (e : event) : bool :=
  match e with SessionRollback s' => Nat.eqb s s' | _ => false end.

Definition is_session_close (s : nat) (e : event) : bool :=
  match e with SessionClose s' => Nat.eqb s s' | _ => false end.

(** ** The pool's ceiling and the connections the gateway holds *)


(** Outstanding checkouts plus idle pooled connections. *)
Definition pooled {D} (w : world D) : Z := checked_out w + idle w.

(** Every connection held: the pooled ones and the direct ones. *)
Definition held {D} (w : world D) : Z := pooled w + Z.of_nat (size (txn w)).


(** ** The filter fields as a table *)

Inductive filter_field := Region | District | SexField | MinAge | MaxAge | Marital | Education.

(** In the order [search_individuals] tests them. *)
Definition filter_fields : list filter_field :=
  [Region; District; SexField; MinAge; MaxAge; Marital; Education].

Definition field_column (f : filter_field) : string :=
  match f with
  | Region => "g.region_name"
  | District => "g.district_name"
  | SexField => "i.sex"
  | MinAge => "i.age"
  | MaxAge => "i.age"
  | Marital => "i.marital_status"
  | Education => "i.highest_education_level"
  end.

Definition field_operator (f : filter_field) : string :=
  match f with
  | MinAge => ">="
  | MaxAge => "<="
  | _ => "="
  end.

Definition field_key (f : filter_field) : string :=
  match f with
  | Region => "region_name"
  | District => "district_name"
  | SexField => "sex"
  | MinAge => "min_age"
  | MaxAge => "max_age"
  | Marital => "marital_status"
  | Education => "education_level"
  end.

(** [column operator :key], the one parameterized condition of a field. *)
Definition condition_text (f : filter_field) : string :=
  field_column f ++ " " ++ field_operator f ++ " :" ++ field_key f.

(** The value a field holds, if the filter has one. *)
Definition field_value (F : SearchFilters.t) (f : filter_field) : option pyval :=
  match f with
  | Region => PStr <$> SearchFilters.region_name F
  | District => PStr <$> SearchFilters.district_name F
  | SexField => (fun s => PStr (Sex_value s)) <$> SearchFilters.sex F
  | MinAge => PInt <$> SearchFilters.min_age F
  | MaxAge => PInt <$> SearchFilters.max_age F
  | Marital => PStr <$> SearchFilters.marital_status F
  | Education => PStr <$> SearchFilters.education_level F
  end.

(** A field is present when it is not [None]. *)
Definition field_present (F : SearchFilters.t) (f : filter_field) : bool :=
  is_not_None (field_value F f).

(** A field is supplied when it is present and not the empty string. *)
Definition field_supplied (F : SearchFilters.t) (f : filter_field) : option pyval :=
  match field_value F f with
  | Some (PStr EmptyString) => None
  | v => v
  end.

(** The WHERE conditions in the specification's words: one condition for
    each present field, nothing for an absent one. *)
Definition spec_where_conditions (F : SearchFilters.t) : list string :=
  condition_text <$> List.filter (field_present F) filter_fields.

(** The supplied fields with their values, in order. *)
Definition supplied_fields (F : SearchFilters.t) : list (filter_field * pyval) :=
  omap (fun f => (fun v => (f, v)) <$> field_supplied F f) filter_fields.

(** What a condition on a field means for a joined row. *)
Definition field_holds (f : filter_field) (v : pyval) (r : joined) : bool :=
  match f with
  | Region => sql_equal (field_of (row_g r) "REGION_NAME") v
  | District => sql_equal (field_of (row_g r) "DISTRICT_NAME") v
  | SexField => sql_equal (field_of (row_i r) "SEX") v
  | MinAge => sql_le v (field_of (row_i r) "AGE")
  | MaxAge => sql_le (field_of (row_i r) "AGE") v
  | Marital => sql_equal (field_of (row_i r) "MARITAL_STATUS") v
  | Education => sql_equal (field_of (row_i r) "HIGHEST_EDUCATION_LEVEL") v
  end.

Definition satisfies (F : SearchFilters.t) (r : joined) : bool :=
  forallb (fun fv => field_holds fv.1 fv.2 r) (supplied_fields F).



(** ** Small databases and drivers for examples *)

(** Stored procedures that write what they are called with to a ledger, and
    then fail with [failure] if there is one, else return [outs]. *)
Definition ledger_driver (failure : option exn) (outs : list pyval)
  : driver (list (string * list pyval)) :=
  {| raises := fun _ _ => None;
     procedure := fun name args d =>
       ((name, args) :: d, match failure with Some e => inl e | None => inr outs end);
     statement := fun _ _ _ => inr (Rows []);
     session_statement := fun sql _ d => ((sql, []) :: d, inr (Rowcount 1));
     stale := fun _ => false |}.




(** [min_age=18, max_age=65] *)
Definition adults : SearchFilters.t :=
  {| SearchFilters.region_name := None; SearchFilters.district_name := None;
     SearchFilters.sex := None;
     SearchFilters.min_age := Some 18; SearchFilters.max_age := Some 65;
     SearchFilters.marital_status := None; SearchFilters.education_level := None |}.

(** [region_name=""], every other field absent. *)
Definition empty_region : SearchFilters.t :=
  {| SearchFilters.region_name := Some ""; SearchFilters.district_name := None;
     SearchFilters.sex := None;
     SearchFilters.min_age := None; SearchFilters.max_age := None;
     SearchFilters.marital_status := None; SearchFilters.education_level := None |}.



(** ** The conditions of a list of fields, as words and as parsed *)

Definition condition_words (f : filter_field) : list string :=
  [field_column f; field_operator f; ":" ++ field_key f].

Fixpoint conditions_words (fs : list filter_field) : list string :=
  match fs with
  | [] => []
  | f :: rest =>
      match rest with
      | [] => condition_words f
      | _ => (condition_words f ++ "AND" :: conditions_words rest)%list
      end
  end.

Definition field_op (f : filter_field) : comparison_op :=
  match f with
  | MinAge => OpGe
  | MaxAge => OpLe
  | _ => OpEq
  end.

Definition condition_of (f : filter_field) : condition :=
  {| cond_column := field_column f; cond_op := field_op f; cond_bind := field_key f |}.


(** The rows [execute_raw_sql] makes of the database's answer. *)
Definition rows_of (answer : exn + result) : option (list (gmap string pyval)) :=
  match answer with
  | inr (Rows rows) => Some rows
  | inr (Rowcount n) => Some [{["affected_rows" := PInt n]}]
  | inl _ => None
  end.

(** * Further parts of the gateway *)

(** ** [config/oracle_config.py]: where the engine and the direct connections connect *)

(** The connection parameters of [OracleSettings], whose pool settings are the
    record [OracleSettings] above. *)
Module ConnectionSettings.
Record t := {
  ORACLE_HOST : string;
  ORACLE_PORT : Z;
  ORACLE_SID : string;
  ORACLE_SERVICE_NAME : option string;
  ORACLE_USERNAME : string;
  ORACLE_PASSWORD : string
}.






End ConnectionSettings.

(** ** [IndividualBase.validate_age_consistency] *)

Inductive validation_failure :=
| ValueError (msg : string)
| OperandTypeError.

(** Truth value of a Python value in a condition. *)
Definition truthy_value (v : pyval) : bool :=
  match v with
  | PNone => false
  | PBool b => b
  | PInt z => negb (z =? 0)
  | PStr s => negb (String.eqb s "")
  | PDate _ => true
  end.

(** A value as an operand of integer arithmetic; [True] and [False] are 1 and 0. *)
Definition int_value (v : pyval) : option Z :=
  match v with
  | PInt z => Some z
  | PBool b => Some (if b then 1 else 0)
  | _ => None
  end.

(** The validator of [age] and [date_of_birth]: [v] is the value under
    validation, [values] the fields validated before it, [today] the ordinal
    of [date.today()].  A date is the ordinal of its day, so a difference of
    dates is a number of days. *)
Definition validate_age_consistency (today : Z) (v : pyval) (values : gmap string pyval)
  : validation_failure + pyval :=
  match values !! "date_of_birth" with
  | Some date_of_birth =>
      if truthy_value date_of_birth && truthy_value v
      then match date_of_birth, int_value v with
           | PDate born, Some age =>
               let calculated_age := (today - born) / 365 in
               if 1 <? Z.abs (calculated_age - age)
               then inl (ValueError "Age does not match date of birth")
               else inr v
           | _, _ => inl OperandTypeError
           end
      else inr v
  | None => inr v
  end.

(** ** Result rows as records *)

(** [dict(zip(columns, row))]: pairs up to the shorter length; a later pair
    with the same column name replaces an earlier one. *)
Definition record_of (columns : list string) (row : list pyval) : gmap string pyval :=
  foldl (fun m kv => <[kv.1 := kv.2]> m) ∅ (zip columns row).

(** [[dict(zip(columns, row)) for row in rows]] *)
Definition records_of (columns : list string) (rows : list (list pyval))
  : list (gmap string pyval) :=
  record_of columns <$> rows.

(** ** Placeholders of a statement *)

(** The names that follow a colon at the start of a word. *)
Definition placeholders (sql : string) : list string := omap parse_bind (words sql).

(** ** Paging through a search *)



(** A database whose answers name their columns in lower case: the count
    of a search comes back under [total_count]. *)
Definition lower_case_driver : driver (list Z) :=
  {| raises := fun _ _ => None;
     procedure := fun _ _ d => (d, inr []);
     statement := fun _ _ d => inr (Rows [{[ "total_count" := PInt (Z.of_nat (length d)) ]}]);
     session_statement := fun _ _ d => (d, inr (Rowcount 0));
     stale := fun _ => false |}.

(** ** More observations on histories *)

Definition is_execute (e : event) : bool :=
  match e with Execute _ _ => true | _ => false end.

Definition is_return (e : event) : bool :=
  match e with Return => true | _ => false end.

Definition is_HTTPException (e : exn) : bool :=
  match e with HTTPException _ => true | _ => false end.

(** [try: body  except <h1>: k1  except <h2>: k2]: the first clause that
    matches handles the exception; what a handler raises is not handled by
    the other. *)
Definition try_except2 {D A} (body : M D A)
    (h1 : exn -> bool) (k1 : exn -> M D A)
    (h2 : exn -> bool) (k2 : exn -> M D A) : M D A :=
  fun w =>
    match body w with
    | (inr a, w1) => (inr a, w1)
    | (inl e, w1) =>
        if h1 e then k1 e w1
        else if h2 e then k2 e w1
        else (inl e, w1)
    end.

(** [APIResponse] as the routes below fill it; [count] stays [None]. *)
Module APIResponse.
Record t := {
  success : bool;
  message : string;
  data : option (gmap string pyval)
}.
End APIResponse.

Section Further.
Context {D : Type} (drv : driver D) (settings : OracleSettings).

(** *** [get_database_session], the session dependency of the routes *)

(** [session = get_session(); try: yield session  finally: session.close()],
    with [body] what runs at the [yield]. *)
Definition get_database_session {A} (body : nat -> M D A) : M D A :=
  session ← get_session drv;
  try_finally (body session) (session_close drv settings session).

(** *** [OracleConnectionManager.test_connection] *)

Definition connection_test_sql : string := "SELECT 'Connection Test' FROM DUAL".

(** [result.fetchone()] is [None] when there is no row, and [test_result[0]]
    then raises a [TypeError]; fetching from a result that returns no rows
    raises an [Exception] of the engine, which is an [InterfaceError] here.
    [logger.info] leaves no trace in the history. *)
Definition test_connection : M D bool :=
  try_except
    (pool_acquire drv settings;;
     try_finally
       (call drv (Execute connection_test_sql ∅);;
        act (fun w =>
          match statement drv connection_test_sql ∅ (database w) with
          | inl e => (inl e, w)
          | inr (Rows (test_result :: _)) => (inr true, w)
          | inr (Rows []) => (inl (TypeError "'NoneType' object is not subscriptable"), w)
          | inr (Rowcount _) =>
              (inl (InterfaceError "This result object does not return rows"), w)
          end))
       (pool_release drv settings))
    is_Exception
    (fun e => logger_error "Database connection test failed" e;; mret false).

(** *** Routes of [census_routes.py] over the procedure operations *)





(** *** The health route *)

(** [str(e)], the text of an exception, is the driver's. *)
Context (exception_text : exn -> string).


(** *** [CensusService.get_database_statistics] *)

Definition database_statistics_sql : string :=
"
        SELECT 
            (SELECT COUNT(*) FROM GEOGRAPHICAL_INFO) as total_geographical_areas,
            (SELECT COUNT(*) FROM HOUSEHOLD) as total_households,
            (SELECT COUNT(*) FROM INDIVIDUAL) as total_individuals,
            (SELECT COUNT(*) FROM HOUSING) as total_housing_records,
            (SELECT COUNT(*) FROM ECONOMIC_ACTIVITY) as total_economic_records,
            (SELECT COUNT(*) FROM ACTIVITY_LOG) as total_log_entries
        FROM DUAL
        ".

(** [result[0] if result else {}] *)
Definition get_database_statistics : M D (gmap string pyval) :=
  result ← execute_raw_sql drv settings database_statistics_sql ∅;
  mret (match result with
        | row :: _ => row
        | [] => ∅
        end).

End Further.

Local Open Scope list_scope.

(** * Properties *)

(** ** Words of the generated statements *)

Lemma words_nonempty (s : string) : at_boundary s = false -> words s <> [].
Proof.
  destruct s as [|c s]; simpl; [discriminate|].
  intros ->. destruct (at_boundary s); [discriminate|].
  destruct (words s); discriminate.
Qed.

Lemma at_boundary_app (a b : string) (c : ascii) :
  is_space c = true -> at_boundary (a ++ String c b)%string = at_boundary a.
Proof. intros Hc. destruct a; simpl; [exact Hc | reflexivity]. Qed.

(** Words do not straddle a blank. *)
Lemma words_app_space (a b : string) (c : ascii) :
  is_space c = true -> words (a ++ String c b)%string = words a ++ words b.
Proof.
  intros Hc. induction a as [|x a IH]; simpl.
  - rewrite Hc. reflexivity.
  - destruct (is_space x); [exact IH|].
    rewrite (at_boundary_app a b c Hc).
    destruct (at_boundary a) eqn:Hb.
    + rewrite IH. reflexivity.
    + rewrite IH. pose proof (words_nonempty a Hb) as Hne.
      destruct (words a); [contradiction | reflexivity].
Qed.

Lemma words_count_sql (wc : string) : words (count_sql wc) = count_head ++ words wc.
Proof.
  unfold count_sql.
  match goal with
  | |- words (_ ++ (wc ++ String ?c ?rest))%string = _ =>
      transitivity (count_head ++ words (wc ++ String c rest)%string);
        [reflexivity | rewrite (words_app_space wc rest c eq_refl)]
  end.
  rewrite app_nil_r. reflexivity.
Qed.

Lemma words_data_sql (wc : string) :
  words (data_sql wc) = data_head ++ words wc ++ data_tail.
Proof.
  unfold data_sql.
  match goal with
  | |- words (_ ++ (wc ++ String ?c ?rest))%string = _ =>
      transitivity (data_head ++ words (wc ++ String c rest)%string);
        [reflexivity | rewrite (words_app_space wc rest c eq_refl)]
  end.
  reflexivity.
Qed.



Lemma words_condition_text (f : filter_field) : words (condition_text f) = condition_words f.
Proof. destruct f; reflexivity. Qed.

Lemma condition_text_split (f : filter_field) (rest : string) :
  words (condition_text f ++ " AND " ++ rest)%string
  = condition_words f ++ "AND" :: words rest.
Proof.
  change (condition_text f ++ " AND " ++ rest)%string
    with (condition_text f ++ String " " ("AND" ++ String " " rest))%string.
  rewrite (words_app_space _ _ " " eq_refl), words_condition_text.
  rewrite (words_app_space "AND" rest " " eq_refl). reflexivity.
Qed.

Lemma words_join_conditions (fs : list filter_field) :
  words (join " AND " (condition_text <$> fs)) = conditions_words fs.
Proof.
  induction fs as [|f rest IH]; [reflexivity|].
  destruct rest as [|g rest].
  - simpl. apply words_condition_text.
  - change (join " AND " (condition_text <$> f :: g :: rest))
      with (condition_text f ++ " AND " ++ join " AND " (condition_text <$> g :: rest))%string.
    rewrite condition_text_split, IH. reflexivity.
Qed.

Lemma parse_condition_words (f : filter_field) (rest : list string) :
  parse_conditions (condition_words f ++ rest)
  = match rest with
    | [] => Some [condition_of f]
    | t :: rest' =>
        if decide (t = "AND") then (condition_of f ::.) <$> parse_conditions rest' else None
    end.
Proof. destruct f; reflexivity. Qed.

Lemma parse_conditions_words (fs : list filter_field) :
  fs <> [] -> parse_conditions (conditions_words fs) = Some (condition_of <$> fs).
Proof.
  induction fs as [|f rest IH]; [congruence|]. intros _.
  destruct rest as [|g rest].
  - simpl conditions_words. rewrite <- (app_nil_r (condition_words f)).
    rewrite parse_condition_words. reflexivity.
  - change (conditions_words (f :: g :: rest))
      with (condition_words f ++ "AND" :: conditions_words (g :: rest)).
    rewrite parse_condition_words.
    destruct (decide ("AND" = "AND")); [|contradiction].
    rewrite IH by discriminate. reflexivity.
Qed.

Lemma conditions_words_not_tautology (fs : list filter_field) :
  fs <> [] -> conditions_words fs <> ["1=1"].
Proof.
  destruct fs as [|f [|g rest]]; [congruence | destruct f; discriminate |].
  intros _. simpl. destruct f; discriminate.
Qed.



(** ** What [search_conditions] collects *)

Ltac each_filter F :=
  destruct F as [r d s a b m e];
  destruct r as [[|? ?]|], d as [[|? ?]|], s as [[]|], a, b, m as [[|? ?]|], e as [[|? ?]|].

Lemma where_conditions_supplied (F : SearchFilters.t) :
  where_conditions F = condition_text <$> (supplied_fields F).*1.
Proof. each_filter F; reflexivity. Qed.

Lemma filter_params_supplied (F : SearchFilters.t) :
  filter_params F
  = list_to_map ((fun fv => (field_key fv.1, fv.2)) <$> supplied_fields F).
Proof. each_filter F; reflexivity. Qed.

Lemma filter_params_lookup (F : SearchFilters.t) (f : filter_field) :
  filter_params F !! field_key f = field_supplied F f.
Proof. each_filter F; destruct f; reflexivity. Qed.

Lemma supplied_fields_lookup (F : SearchFilters.t) (f : filter_field) (v : pyval) :
  In (f, v) (supplied_fields F) -> field_supplied F f = Some v.
Proof.
  unfold supplied_fields. intros H. apply list_elem_of_In in H.
  apply list_elem_of_omap in H. destruct H as (g & _ & Hg).
  destruct (field_supplied F g) eqn:E; simpl in Hg; [|discriminate].
  injection Hg as -> ->. exact E.
Qed.

Lemma where_clause_words (F : SearchFilters.t) :
  words (where_clause F)
  = match supplied_fields F with
    | [] => ["1=1"]
    | _ => conditions_words (supplied_fields F).*1
    end.
Proof.
  unfold where_clause. rewrite where_conditions_supplied.
  destruct (supplied_fields F) as [|fv fvs] eqn:E; [reflexivity|].
  rewrite <- words_join_conditions. reflexivity.
Qed.

Lemma parse_where_clause (F : SearchFilters.t) :
  parse_where (words (where_clause F)) = Some (condition_of <$> (supplied_fields F).*1).
Proof.
  rewrite where_clause_words. unfold parse_where.
  destruct (supplied_fields F) as [|fv fvs]; [reflexivity|].
  destruct (decide (conditions_words ((fv :: fvs).*1) = ["1=1"])) as [E|_].
  - exfalso. revert E. apply conditions_words_not_tautology. discriminate.
  - apply parse_conditions_words. discriminate.
Qed.


(** ** The conditions mean what the fields say *)

Lemma eval_condition_field (params : gmap string pyval) (r : joined)
    (f : filter_field) (v : pyval) :
  params !! field_key f = Some v ->
  eval_condition params r (condition_of f) = inr (field_holds f v r).
Proof.
  intros H. unfold eval_condition. simpl cond_bind. rewrite H.
  destruct f; reflexivity.
Qed.

Lemma eval_conditions_fields (params : gmap string pyval) (r : joined)
    (fvs : list (filter_field * pyval)) :
  (forall f v, In (f, v) fvs -> params !! field_key f = Some v) ->
  eval_conditions params r (condition_of <$> fvs.*1)
  = inr (forallb (fun fv => field_holds fv.1 fv.2 r) fvs).
Proof.
  induction fvs as [|[f v] fvs IH]; intros H; [reflexivity|].
  change (eval_conditions params r (condition_of <$> ((f, v) :: fvs).*1))
    with (match eval_condition params r (condition_of f) with
          | inl e => inl e
          | inr b =>
              match eval_conditions params r (condition_of <$> fvs.*1) with
              | inl e => inl e
              | inr bs => inr (b && bs)
              end
          end).
  rewrite (eval_condition_field params r f v) by (apply H; left; reflexivity).
  rewrite IH by (intros; apply H; right; assumption).
  reflexivity.
Qed.






(** ** Row numbers and the page window *)




(** ** [ORDER BY] sorts *)





(** ** Pagination *)



(** ** The WHERE clause *)

Lemma supplied_names_filter (F : SearchFilters.t) :
  (supplied_fields F).*1
  = List.filter (fun f => is_not_None (field_supplied F f)) filter_fields.
Proof. each_filter F; reflexivity. Qed.

(** With [region_name=""] the field is present, yet no condition is built:
    the clause is the one of the empty filter, not the one condition the
    specification's reading gives. *)
Lemma empty_region_contributes_nothing :
  field_present empty_region Region = true
  /\ spec_where_conditions empty_region = ["g.region_name = :region_name"]
  /\ where_conditions empty_region = []
  /\ filter_params empty_region !! "region_name" = None
  /\ where_clause empty_region = "1=1"
  /\ where_conditions empty_region <> spec_where_conditions empty_region.
Proof. repeat split; try reflexivity. discriminate. Qed.

(** C2, amended. The WHERE clause has exactly one AND-ed parameterized
    condition for each filter field that is supplied, that is present and,
    for the string fields, not the empty string: equality for region,
    district, sex, marital status and education level, [>=] for [min_age] and
    [<=] for [max_age]; the value is bound under the field's key; a field
    that is absent or an empty string contributes no condition and no
    binding; a row satisfies the clause exactly when every supplied field
    holds of it; with no field supplied the clause is [1=1], which every row
    satisfies. *)
Theorem where_clause_one_condition_per_supplied_field (F : SearchFilters.t) :
  where_conditions F
  = condition_text <$> List.filter (fun f => is_not_None (field_supplied F f)) filter_fields
  /\ where_clause F
     = match List.filter (fun f => is_not_None (field_supplied F f)) filter_fields with
       | [] => "1=1"
       | fs => join " AND " (condition_text <$> fs)
       end
  /\ (forall f, filter_params F !! field_key f = field_supplied F f)
  /\ filter_params F = list_to_map ((fun fv => (field_key fv.1, fv.2)) <$> supplied_fields F)
  /\ (forall f,
        field_supplied F f
        = if field_present F f && negb (bool_decide (field_value F f = Some (PStr "")))
          then field_value F f else None)
  /\ (condition_text Region = "g.region_name = :region_name"
      /\ condition_text District = "g.district_name = :district_name"
      /\ condition_text SexField = "i.sex = :sex"
      /\ condition_text MinAge = "i.age >= :min_age"
      /\ condition_text MaxAge = "i.age <= :max_age"
      /\ condition_text Marital = "i.marital_status = :marital_status"
      /\ condition_text Education = "i.highest_education_level = :education_level")
  /\ (exists cs,
        parse_where (words (where_clause F)) = Some cs
        /\ length cs = length (where_conditions F)
        /\ forall r, eval_conditions (filter_params F) r cs = inr (satisfies F r))
  /\ (where_clause SearchFilters.empty = "1=1"
      /\ filter_params SearchFilters.empty = ∅
      /\ parse_where (words "1=1") = Some []
      /\ forall r, satisfies SearchFilters.empty r = true).
Proof.
  split; [rewrite where_conditions_supplied, supplied_names_filter; reflexivity|].
  split.
  { unfold where_clause. rewrite where_conditions_supplied, supplied_names_filter.
    destruct (List.filter _ filter_fields); reflexivity. }
  split; [apply filter_params_lookup|].
  split; [apply filter_params_supplied|].
  split.
  { intros f. unfold field_supplied, field_present.
    destruct (field_value F f) as [[| | |[|c s]|]|]; reflexivity. }
  split; [repeat split|].
  split.
  { exists (condition_of <$> (supplied_fields F).*1).
    split; [apply parse_where_clause|].
    split; [rewrite where_conditions_supplied, !length_fmap; reflexivity|].
    intros r. apply eval_conditions_fields. intros f v Hin.
    rewrite filter_params_lookup. apply supplied_fields_lookup. exact Hin. }
  repeat split.
Qed.

(** ** An identifier of zero *)


(** ** The count and the data statement *)

(** What a read returns is the database's answer to its statement on the
    committed data. *)
Lemma execute_raw_sql_rows {D} (drv : driver D) settings sql params (w w1 : world D) rows :
  execute_raw_sql drv settings sql params w = (inr rows, w1) ->
  rows_of (statement drv sql params (database w)) = Some rows.
Proof.
  remember (statement drv sql params (database w)) as answer eqn:Ea.
  unfold execute_raw_sql, try_except, try_finally, pool_acquire, pool_release,
    logger_error, call, act, raise, mbind, mret, M_bind, M_ret, bind, ret.
  repeat match goal with
         | _ => progress cbn [fst snd trace txn database record set_txn set_fresh
                              set_outvars set_database outvars fresh sessions
                              checked_out idle set_pool set_sessions]
         | |- context [statement drv sql params (database w)] =>
             rewrite <- Ea; destruct answer as [?|[?|?]]
         | |- context [match raises ?d ?e ?h with _ => _ end] =>
             destruct (raises d e h) eqn:?
         | |- context [if is_Exception ?e then _ else _] => destruct (is_Exception e) eqn:?
         | |- context [if ?b then _ else _] => destruct b eqn:?
         end.
  all: intros H; try discriminate H; injection H as <- _; reflexivity.
Qed.








(** ** The page count *)






(** ** Runs of the procedure operations *)

Ltac unfold_gateway :=
  unfold perform, flag,
    create_geographical_info, update_geographical_info, delete_geographical_info,
    create_household, update_household, delete_household,
    create_individual, update_individual, delete_individual,
    create_housing, update_housing, delete_housing, create_economic_activity,
    missing_attribute,
    get_connection, oracledb_connect, connection_cursor, cursor_var,
    cursor_callproc, cursor_close, connection_commit, connection_rollback, connection_close,
    var_getvalue, if_connection, try_finally, try_except, logger_error, call, act, raise,
    mbind, mret, M_bind, M_ret, bind, ret in *.

Ltac world_simpl :=
  cbn [fst snd trace txn database record set_txn set_fresh set_outvars set_database
       outvars fresh sessions checked_out idle set_pool set_sessions] in *.

(** One step along a run: decide the next call of the driver. *)
Ltac step :=
  match goal with
  | _ => progress cbn [is_Exception is_DatabaseError]
  | |- context [match raises ?d ?e ?h with _ => _ end] => destruct (raises d e h) eqn:?
  | |- context [match procedure ?d ?n ?a ?x with _ => _ end] =>
      destruct (procedure d n a x) as [? [?|?]] eqn:?
  | |- context [if is_Exception ?e then _ else _] => destruct (is_Exception e) eqn:?
  | |- context [if is_DatabaseError ?e then _ else _] => destruct (is_DatabaseError e) eqn:?
  | |- context [(<[?k := ?v]> ?m) !! ?k] => rewrite (lookup_insert_eq m k v)
  | _ => progress world_simpl
  end.


Ltac prefix_of l t :=
  lazymatch l with
  | t => constr:(@nil event)
  | ?x :: ?l' => let r := prefix_of l' t in constr:(x :: r)
  end.

(** The events a run added to the history. *)
Ltac give_events :=
  lazymatch goal with
  | |- exists evs, ?l = evs ++ ?t /\ _ =>
      let p := prefix_of l t in exists p; split; [reflexivity|]
  end.

Ltac count_events :=
  unfold calls;
  cbn [List.filter is_commit is_connect is_close is_rollback is_callproc is_log logged
       is_checkout is_session_close is_session_commit is_session_rollback
       length String.eqb Ascii.eqb Bool.eqb];
  rewrite ?Nat.eqb_refl; cbn [length].

Ltac in_events H :=
  simpl in H;
  repeat (destruct H as [H|H]; [try discriminate H|]);
  try contradiction.

(** ** Sessions and connections as context managers *)

Lemma session_paths {D A} (drv : driver D) (settings : OracleSettings)
    (body : nat -> M D A) (w : world D) s w1 r w2 :
  get_session drv w = (inr s, w1) ->
  body s w1 = (r, w2) ->
  exists evs,
    trace (get_session_context drv settings body w).2 = evs ++ trace w2
    /\ calls (is_session_close s) evs = 1%nat
    /\ match r with
       | inr _ => calls (is_session_commit s) evs = 1%nat
       | inl e =>
           calls (is_session_commit s) evs = 0%nat
           /\ database (get_session_context drv settings body w).2 = database w2
           /\ (is_Exception e = true -> calls (is_session_rollback s) evs = 1%nat)
           /\ (is_Exception e = false -> calls (is_session_rollback s) evs = 0%nat)
           /\ exists e', (get_session_context drv settings body w).1 = inl e'
       end.
Proof.
  intros Hs Hb. unfold get_session_context, mbind, M_bind, bind. rewrite Hs.
  unfold try_finally, try_except, mbind, M_bind, bind. rewrite Hb.
  unfold session_commit, session_rollback, session_close, pool_release, logger_error,
    call, act, raise, mbind, mret, M_bind, M_ret, bind, ret.
  destruct r as [e|a].
  all: repeat (match goal with
      | |- context [match raises ?d ?e ?h with _ => _ end] => destruct (raises d e h) eqn:?
      | |- context [if is_Exception ?e then _ else _] => destruct (is_Exception e) eqn:?
      | |- context [match ?m !! ?k with _ => _ end] => destruct (m !! k) as [[[] ?]|] eqn:?
      | |- context [if ?b then _ else _] => destruct b eqn:?
      | _ => progress world_simpl
      end).
  all: give_events; count_events.
  all: repeat split; try reflexivity; try congruence; eauto.
Qed.

Lemma connection_paths {D A} (drv : driver D) (body : nat -> M D A) (w : world D)
    c w1 r w2 :
  oracledb_connect drv w = (inr c, w1) ->
  body c w1 = (r, w2) ->
  exists evs,
    trace (get_connection drv body w).2 = evs ++ trace w2
    /\ calls (is_close c) evs = 1%nat
    /\ calls is_commit evs = 0%nat
    /\ database (get_connection drv body w).2 = database w2
    /\ match r with
       | inr _ => calls is_rollback evs = 0%nat
       | inl e =>
           (is_Exception e = true -> calls is_rollback evs = 1%nat)
           /\ (is_Exception e = false -> calls is_rollback evs = 0%nat)
           /\ exists e', (get_connection drv body w).1 = inl e'
       end.
Proof.
  intros Hc Hb. unfold get_connection. rewrite Hc, Hb.
  unfold try_finally, try_except, if_connection, connection_rollback, connection_close,
    logger_error, call, act, raise, mbind, mret, M_bind, M_ret, bind, ret.
  destruct r as [e|a].
  all: repeat (match goal with
      | |- context [match raises ?d ?e ?h with _ => _ end] => destruct (raises d e h) eqn:?
      | |- context [if is_Exception ?e then _ else _] => destruct (is_Exception e) eqn:?
      | |- context [match ?m !! ?k with _ => _ end] => destruct (m !! k) eqn:?
      | _ => progress world_simpl
      end).
  all: give_events; count_events.
  all: repeat split; try reflexivity; try congruence; eauto.
Qed.

(** [get_connection] does not commit: with an inner operation that does
    nothing it only connects and closes; and [delete_household], whose inner
    operation returns [False] normally when its procedure fails, ends with
    neither commit nor rollback. *)
Lemma get_connection_does_not_commit :
  (let r := get_connection (ledger_driver None []) (fun _ => mret tt) (start []) in
   r.1 = inr tt
   /\ trace r.2 = [Close 0; Connect 0]
   /\ calls is_commit (trace r.2) = 0%nat)
  /\ (let r := delete_household
                 (ledger_driver (Some (DatabaseError "ORA-02292: child record found")) [])
                 7 (start []) in
      r.1 = inr false
      /\ calls is_commit (trace r.2) = 0%nat
      /\ calls is_rollback (trace r.2) = 0%nat
      /\ calls (is_close 0) (trace r.2) = 1%nat).
Proof. vm_compute. repeat split. Qed.

(** C5, amended. [get_session_context]: when the inner operation returns
    normally commit is called exactly once; when it raises, commit is not
    called, the committed data stay as the inner operation left them, an
    exception is propagated, and rollback is called once if it is an
    [Exception]; on every path the session is closed exactly once.
    [DirectOracleConnection.get_connection], which wraps the procedure
    operations: it never calls commit itself and leaves the committed data
    as the inner operation left them; it calls rollback once when the inner
    operation raises an [Exception] and not when it returns; on every path
    on which a connection was opened it closes it exactly once. *)
Theorem session_commit_rollback_release :
  forall D A (drv : driver D) (settings : OracleSettings) (body : nat -> M D A) (w : world D),
    (forall s w1 r w2,
        get_session drv w = (inr s, w1) ->
        body s w1 = (r, w2) ->
        exists evs,
          trace (get_session_context drv settings body w).2 = evs ++ trace w2
          /\ calls (is_session_close s) evs = 1%nat
          /\ match r with
             | inr _ => calls (is_session_commit s) evs = 1%nat
             | inl e =>
                 calls (is_session_commit s) evs = 0%nat
                 /\ database (get_session_context drv settings body w).2 = database w2
                 /\ (is_Exception e = true -> calls (is_session_rollback s) evs = 1%nat)
                 /\ (is_Exception e = false -> calls (is_session_rollback s) evs = 0%nat)
                 /\ exists e', (get_session_context drv settings body w).1 = inl e'
             end)
    /\ (forall c w1 r w2,
          oracledb_connect drv w = (inr c, w1) ->
          body c w1 = (r, w2) ->
          exists evs,
            trace (get_connection drv body w).2 = evs ++ trace w2
            /\ calls (is_close c) evs = 1%nat
            /\ calls is_commit evs = 0%nat
            /\ database (get_connection drv body w).2 = database w2
            /\ match r with
               | inr _ => calls is_rollback evs = 0%nat
               | inl e =>
                   (is_Exception e = true -> calls is_rollback evs = 1%nat)
                   /\ (is_Exception e = false -> calls is_rollback evs = 0%nat)
                   /\ exists e', (get_connection drv body w).1 = inl e'
               end).
Proof.
  intros D A drv settings body w. split.
  - intros s w1 r w2. apply session_paths.
  - intros c w1 r w2. apply connection_paths.
Qed.

Lemma session_commit_rollback_release_idle_body :
  let drv := ledger_driver None [] in
  let body : nat -> M (list (string * list pyval)) unit := fun _ => mret tt in
  (exists evs,
      trace (get_session_context drv default_settings body (start [])).2
      = evs ++ trace (body 0%nat (get_session drv (start [])).2).2
      /\ calls (is_session_close 0) evs = 1%nat
      /\ calls (is_session_commit 0) evs = 1%nat)
  /\ (exists evs,
        trace (get_connection drv body (start [])).2
        = evs ++ trace (body 0%nat (oracledb_connect drv (start [])).2).2
        /\ calls (is_close 0) evs = 1%nat
        /\ calls is_commit evs = 0%nat
        /\ calls is_rollback evs = 0%nat).
Proof.
  intros drv body.
  pose proof (session_commit_rollback_release _ _ drv default_settings body (start []))
    as [Hs Hc].
  split.
  - destruct (Hs 0%nat (get_session drv (start [])).2
                (body 0%nat (get_session drv (start [])).2).1
                (body 0%nat (get_session drv (start [])).2).2 eq_refl eq_refl)
      as (evs & H1 & H2 & H3).
    exists evs. simpl in H3. repeat split; assumption.
  - destruct (Hc 0%nat (oracledb_connect drv (start [])).2
                (body 0%nat (oracledb_connect drv (start [])).2).1
                (body 0%nat (oracledb_connect drv (start [])).2).2 eq_refl eq_refl)
      as (evs & H1 & H2 & H3 & _ & H5).
    exists evs. simpl in H5. repeat split; assumption.
Defined.

(** ** Failure of a procedure call *)




(** ** Deletes *)









(** ** The pool's ceiling *)










(** * Further properties *)

(** ** Statement text and bindings *)




Lemma placeholders_app (a b : list string) :
  omap parse_bind (a ++ b) = omap parse_bind a ++ omap parse_bind b.
Proof.
  apply omap_app.
Qed.

Lemma placeholders_conditions_words (fs : list filter_field) :
  omap parse_bind (conditions_words fs) = field_key <$> fs.
Proof.
  induction fs as [|f rest IH]; [reflexivity|].
  destruct rest as [|g rest].
  - destruct f; reflexivity.
  - change (conditions_words (f :: g :: rest))
      with (condition_words f ++ "AND" :: conditions_words (g :: rest)).
    rewrite placeholders_app.
    change (omap parse_bind ("AND" :: conditions_words (g :: rest)))
      with (omap parse_bind (conditions_words (g :: rest))).
    rewrite IH. destruct f; reflexivity.
Qed.

Lemma placeholders_where_clause (F : SearchFilters.t) :
  omap parse_bind (words (where_clause F)) = field_key <$> (supplied_fields F).*1.
Proof.
  rewrite where_clause_words.
  destruct (supplied_fields F) as [|fv fvs] eqn:E; [reflexivity|].
  apply placeholders_conditions_words.
Qed.

Lemma dom_filter_params (F : SearchFilters.t) :
  dom (filter_params F) = (list_to_set (field_key <$> (supplied_fields F).*1) : gset string).
Proof.
  rewrite filter_params_supplied, dom_list_to_map_L.
  f_equal. rewrite <- !list_fmap_compose. reflexivity.
Qed.

(** The placeholders of a statement given in full, against the keys bound. *)
Ltac bound_names :=
  cbn [fst snd];
  match goal with
  | |- list_to_set (placeholders ?sql) = _ =>
      let names := eval vm_compute in (placeholders sql) in
      replace (placeholders sql) with names by (vm_compute; reflexivity)
  end;
  rewrite ?dom_insert_L, ?dom_empty_L; set_solver.

(** X2. Every statement the service builds is bound completely: the names
    after a colon in its text are exactly the keys of the bindings passed
    with it, for the count and the data statement of a search and for the
    three reads, whatever their arguments. *)
Theorem placeholders_are_bound :
  (forall F,
      list_to_set (placeholders (count_query F).1) = (dom (count_query F).2 : gset string))
  /\ (forall F p,
        list_to_set (placeholders (data_query F p).1)
        = (dom (data_query F p).2 : gset string))
  /\ (forall geo_id,
        list_to_set (placeholders (get_geographical_info_query geo_id).1)
        = (dom (get_geographical_info_query geo_id).2 : gset string))
  /\ (forall household_id geo_id,
        list_to_set (placeholders (get_households_query household_id geo_id).1)
        = (dom (get_households_query household_id geo_id).2 : gset string))
  /\ (forall individual_id household_id limit,
        list_to_set (placeholders (get_individuals_query individual_id household_id limit).1)
        = (dom (get_individuals_query individual_id household_id limit).2 : gset string)).
Proof.
  split.
  { intros F. unfold placeholders, count_query. simpl fst. simpl snd.
    rewrite words_count_sql, placeholders_app, placeholders_where_clause, dom_filter_params.
    reflexivity. }
  split.
  { intros F p. unfold placeholders, data_query. simpl fst. simpl snd.
    rewrite words_data_sql, !placeholders_app, placeholders_where_clause.
    rewrite !dom_insert_L, dom_filter_params.
    change (omap parse_bind data_head) with (@nil string).
    change (omap parse_bind data_tail) with ["start_row"; "end_row"].
    rewrite app_nil_l, list_to_set_app_L. simpl. set_solver. }
  split.
  { intros geo_id. unfold get_geographical_info_query.
    destruct (truthy_int geo_id); bound_names. }
  split.
  { intros household_id geo_id. unfold get_households_query.
    destruct (truthy_int household_id), (truthy_int geo_id); bound_names. }
  intros individual_id household_id limit. unfold get_individuals_query.
  destruct (is_not_None individual_id), (is_not_None household_id), (is_not_None limit);
    bound_names.
Qed.

(** ** Paging through a search *)









(** ** Filters that match everything or nothing *)





(** ** The validator of age against date of birth *)

(** X6. [validate_age_consistency] never changes the value it validates.
    With a date of birth among the values, an age other than 0 is accepted
    exactly when it differs by at most 1 from the whole number of 365-day
    years between the date of birth and today, and is refused with a
    [ValueError] otherwise; the age 0 and a missing age are accepted whatever
    the date of birth, and so is any age when no date of birth is known. *)
Theorem validate_age_consistency_accepts (today : Z) (values : gmap string pyval) :
  (forall v r, validate_age_consistency today v values = inr r -> r = v)
  /\ (forall born age,
        values !! "date_of_birth" = Some (PDate born) -> age <> 0 ->
        (-1 <= (today - born) / 365 - age <= 1 ->
         validate_age_consistency today (PInt age) values = inr (PInt age))
        /\ (~ -1 <= (today - born) / 365 - age <= 1 ->
            validate_age_consistency today (PInt age) values
            = inl (ValueError "Age does not match date of birth")))
  /\ validate_age_consistency today (PInt 0) values = inr (PInt 0)
  /\ validate_age_consistency today PNone values = inr PNone
  /\ (forall v,
        values !! "date_of_birth" = None \/ values !! "date_of_birth" = Some PNone ->
        validate_age_consistency today v values = inr v).
Proof.
  unfold validate_age_consistency.
  split; [|split; [|split; [|split]]].
  - intros v r. destruct (values !! "date_of_birth") as [d|]; [|congruence].
    destruct (truthy_value d && truthy_value v); [|congruence].
    destruct d, (int_value v); try discriminate.
    destruct (1 <? Z.abs _); [discriminate|congruence].
  - intros born age Hb Hage. rewrite Hb. simpl.
    destruct (Z.eqb_spec age 0) as [?|_]; [contradiction|]. simpl.
    destruct (Z.ltb_spec 1 (Z.abs ((today - born) / 365 - age))); split; intros Hr;
      try reflexivity; lia.
  - destruct (values !! "date_of_birth") as [d|]; [|reflexivity].
    simpl. rewrite andb_false_r. reflexivity.
  - destruct (values !! "date_of_birth") as [d|]; [|reflexivity].
    simpl. rewrite andb_false_r. reflexivity.
  - intros v [-> | ->]; reflexivity.
Qed.

Lemma validate_age_consistency_accepts_within_a_year :
  let values : gmap string pyval := {[ "date_of_birth" := PDate 726000 ]} in
  values !! "date_of_birth" = Some (PDate 726000)
  /\ 31 <> 0
  /\ validate_age_consistency 737000 (PInt 31) values = inr (PInt 31)
  /\ validate_age_consistency 737000 (PInt 33) values
     = inl (ValueError "Age does not match date of birth").
Proof.
  intros values.
  pose proof (validate_age_consistency_accepts 737000 values) as (_ & H & _).
  split; [reflexivity|]. split; [lia|]. split.
  - apply (proj1 (H 726000 31 eq_refl ltac:(lia))). vm_compute. split; discriminate.
  - apply (proj2 (H 726000 33 eq_refl ltac:(lia))). vm_compute. intros [H1 _]. apply H1. reflexivity.
Defined.

(** ** Result rows as records *)

Lemma record_of_snoc (columns : list string) (row : list pyval) (c : string) (v : pyval) :
  length columns = length row ->
  record_of (columns ++ [c]) (row ++ [v]) = <[c := v]> (record_of columns row).
Proof.
  intros H. unfold record_of.
  rewrite zip_with_app by exact H. rewrite foldl_app. reflexivity.
Qed.

Lemma record_of_take (columns : list string) (row : list pyval) :
  record_of columns row
  = record_of (take (length row) columns) (take (length columns) row).
Proof.
  unfold record_of. f_equal.
  revert row. induction columns as [|c columns IH]; intros [|v row]; try reflexivity.
  simpl. f_equal. apply IH.
Qed.

Lemma record_of_lookup_aligned (columns : list string) (row : list pyval) (c : string) :
  length columns = length row ->
  (c ∉ columns -> record_of columns row !! c = None)
  /\ (forall i v,
        columns !! i = Some c -> row !! i = Some v ->
        (forall j, (i < j)%nat -> columns !! j <> Some c) ->
        record_of columns row !! c = Some v).
Proof.
  revert row. induction columns as [|c' columns IH] using rev_ind; intros row Hlen.
  - split; [reflexivity|]. intros i v H. rewrite lookup_nil in H. discriminate.
  - destruct row as [|v' row _] using rev_ind.
    { rewrite length_app in Hlen. simpl in Hlen. lia. }
    rewrite !length_app in Hlen. simpl in Hlen.
    assert (Hl : length columns = length row) by lia.
    rewrite record_of_snoc by exact Hl.
    destruct (IH row Hl) as [IHn IHs]. split.
    + intros Hc. rewrite not_elem_of_app, not_elem_of_cons in Hc.
      destruct Hc as [Hc [Hne _]].
      rewrite lookup_insert_ne by congruence. apply IHn, Hc.
    + intros i v Hi Hv Hlast.
      destruct (decide (i = length columns)) as [->|Hi'].
      * rewrite list_lookup_middle in Hi by reflexivity.
        rewrite Hl, list_lookup_middle in Hv by reflexivity.
        injection Hi as ->. injection Hv as ->. apply lookup_insert_eq.
      * assert (Hlt : (i < length columns)%nat).
        { apply lookup_lt_Some in Hi. rewrite length_app in Hi. simpl in Hi. lia. }
        rewrite lookup_app_l in Hi by exact Hlt.
        rewrite lookup_app_l in Hv by lia.
        assert (Hne : c' <> c).
        { intros ->. apply (Hlast (length columns) Hlt).
          apply list_lookup_middle. reflexivity. }
        rewrite lookup_insert_ne by exact Hne.
        apply (IHs i v Hi Hv). intros j Hj Hcj.
        apply (Hlast j Hj). rewrite lookup_app_l; [exact Hcj|].
        apply lookup_lt_Some in Hcj. exact Hcj.
Qed.

(** X7. [dict(zip(columns, row))], the record made of a result row: a column
    is a key of the record exactly when it has a value in the row, and it
    then holds the value of its last occurrence among the columns; with
    column names that do not repeat, every column holds its own value, and
    with a repeated name the earlier value is lost.  Columns beyond the
    length of the row, and values beyond the columns, are dropped. *)
Theorem record_of_lookup (columns : list string) (row : list pyval) :
  (forall c, c ∉ take (length row) columns -> record_of columns row !! c = None)
  /\ (forall i c v,
        columns !! i = Some c -> row !! i = Some v ->
        (forall j, (i < j)%nat -> (j < length row)%nat -> columns !! j <> Some c) ->
        record_of columns row !! c = Some v)
  /\ (NoDup columns ->
      forall i c v,
        columns !! i = Some c -> row !! i = Some v -> record_of columns row !! c = Some v)
  /\ (size (record_of columns row) <= Nat.min (length columns) (length row))%nat.
Proof.
  assert (Hlen : length (take (length row) columns) = length (take (length columns) row)).
  { rewrite !length_take. lia. }
  pose proof (fun c => record_of_lookup_aligned (take (length row) columns)
                         (take (length columns) row) c Hlen) as Ha.
  assert (Hlast : forall i c v,
        columns !! i = Some c -> row !! i = Some v ->
        (forall j, (i < j)%nat -> (j < length row)%nat -> columns !! j <> Some c) ->
        record_of columns row !! c = Some v).
  { intros i c v Hi Hv Hl. rewrite record_of_take.
    pose proof (lookup_lt_Some _ _ _ Hi). pose proof (lookup_lt_Some _ _ _ Hv).
    apply (proj2 (Ha c) i v).
    - rewrite lookup_take_lt by lia. exact Hi.
    - rewrite lookup_take_lt by lia. exact Hv.
    - intros j Hj Hcj. pose proof (lookup_lt_Some _ _ _ Hcj) as Hjl.
      rewrite length_take in Hjl.
      rewrite lookup_take_lt in Hcj by lia. apply (Hl j Hj); [lia|exact Hcj]. }
  split; [|split; [exact Hlast|split]].
  - intros c Hc. rewrite record_of_take. apply (proj1 (Ha c)). exact Hc.
  - intros Hnd i c v Hi Hv. apply (Hlast i c v Hi Hv).
    intros j Hj _ Hcj. pose proof (NoDup_lookup _ _ _ _ Hnd Hi Hcj). lia.
  - unfold record_of.
    assert (H : forall (l : list (string * pyval)) (m : gmap string pyval),
               (size (foldl (fun m kv => <[kv.1 := kv.2]> m) m l) <= size m + length l)%nat).
    { induction l as [|kv l IH]; intros m; simpl; [lia|].
      etransitivity; [apply IH|].
      destruct (m !! kv.1) eqn:E.
      - rewrite map_size_insert_Some by eauto. lia.
      - rewrite map_size_insert_None by exact E. lia. }
    etransitivity; [apply H|]. rewrite map_size_empty, length_zip_with. lia.
Qed.

Lemma record_of_lookup_repeated_column :
  let columns := ["INDIVIDUAL_ID"; "REGION_NAME"; "REGION_NAME"] in
  let row := [PInt 7; PStr "Ashanti"; PStr "Volta"] in
  record_of columns row !! "REGION_NAME" = Some (PStr "Volta")
  /\ record_of columns row !! "INDIVIDUAL_ID" = Some (PInt 7)
  /\ size (record_of columns row) = 2%nat.
Proof.
  intros columns row.
  destruct (record_of_lookup columns row) as (_ & H & _).
  split; [|split].
  - apply (H 2%nat); [reflexivity|reflexivity|]. simpl. lia.
  - apply (H 0%nat); [reflexivity|reflexivity|].
    intros [|[|[|j]]] Hj Hl; simpl in *; try lia; discriminate.
  - vm_compute. reflexivity.
Defined.

(** ** Where the gateway connects *)



(** ** Updating geographical information *)

(** X9. [update_geographical_info] never reaches its stored procedure: on
    every path it calls no procedure and commits nothing, the committed data
    stay as they were, and it never returns [True]; when no call of the
    driver fails it logs the error of reading the missing attribute once and
    returns [False], whatever the identifier and the data. *)
Theorem update_geographical_info_never_updates :
  forall D (drv : driver D) (w : world D) (geo_id : Z) (geo_data : GeographicalInfoUpdate.t),
    exists evs,
      trace (update_geographical_info drv geo_id geo_data w).2 = evs ++ trace w
      /\ calls is_callproc evs = 0%nat
      /\ calls is_commit evs = 0%nat
      /\ database (update_geographical_info drv geo_id geo_data w).2 = database w
      /\ (update_geographical_info drv geo_id geo_data w).1 <> inr true
      /\ ((forall e h, raises drv e h = None) ->
          (update_geographical_info drv geo_id geo_data w).1 = inr false
          /\ calls (logged "Error updating geographical info") evs = 1%nat).
Proof.
  intros D drv w geo_id geo_data.
  unfold_gateway. repeat step; give_events; count_events.
  all: repeat split; try reflexivity; try discriminate.
  all: try intros Hq;
    match goal with
    | Hq : forall e h, raises _ e h = None, H : raises _ _ _ = Some _ |- _ =>
        rewrite Hq in H; discriminate H
    end.
Qed.

Lemma update_geographical_info_never_updates_ledger :
  let drv := ledger_driver None [] in
  let geo_data := GeographicalInfoUpdate.Build_t (Some "Volta") None None None None None in
  (forall e h, raises drv e h = None)
  /\ (update_geographical_info drv 3 geo_data (start [])).1 = inr false
  /\ database (update_geographical_info drv 3 geo_data (start [])).2 = [].
Proof.
  intros drv geo_data. split; [reflexivity|].
  destruct (update_geographical_info_never_updates _ drv (start []) 3 geo_data)
    as (evs & _ & _ & _ & Hd & _ & Hq).
  split; [exact (proj1 (Hq (fun _ _ => eq_refl)))|exact Hd].
Defined.

(** ** Success of a procedure call *)

(** One step along a run on which no call of the driver fails. *)
Ltac sure_step Hq :=
  match goal with
  | _ => progress cbn [is_Exception is_DatabaseError]
  | |- context [raises ?d ?e ?h] => rewrite (Hq e h)
  | |- context [if is_Exception ?e then _ else _] => destruct (is_Exception e) eqn:?
  | |- context [if is_DatabaseError ?e then _ else _] => destruct (is_DatabaseError e) eqn:?
  | |- context [(<[?k := ?v]> ?m) !! ?k] => rewrite (lookup_insert_eq m k v)
  | _ => progress world_simpl
  end.

(** X10. When no call of the driver fails, an operation other than
    [update_geographical_info] calls its stored procedure once, on its own
    connection, with the committed data before it.  If the procedure
    succeeds, giving new data and its outputs: a create operation commits the
    new data and returns the procedure's first output ([None] if it gives
    none); an update or delete operation commits the new data and returns
    [True]; [delete_individual] returns the procedure's first output and
    leaves the committed data as they were, the new data being dropped with
    the connection.  No connection is left open. *)
Theorem procedure_success_outcome :
  forall D (drv : driver D) (w : world D) (op : operation),
    (forall ev h, raises drv ev h = None) ->
    txn w !! fresh w = None ->
    procedure_name op <> "SP_UPDATE_GEOGRAPHICAL_INFO" ->
    exists args evs,
      trace (perform drv op w).2 = evs ++ trace w
      /\ List.filter is_callproc evs = [Callproc (fresh w) (procedure_name op) args]
      /\ forall d' outs,
          procedure drv (procedure_name op) (bound_values args) (database w) = (d', inr outs) ->
          (perform drv op w).1
          = inr (match kind_of op with ReturnsFlag => PBool true | _ => hd PNone outs end)
          /\ database (perform drv op w).2
             = match kind_of op with ReadsOutput => database w | _ => d' end
          /\ txn (perform drv op w).2 = txn w.
Proof.
  intros D drv w op Hq Hf Hop.
  destruct op; simpl procedure_name in *; simpl kind_of; try congruence; clear Hop.
  all: unfold_gateway; repeat sure_step Hq.
  all: match goal with
       | |- context [procedure ?d ?n (bound_values ?a) ?x] =>
           exists a; destruct (procedure d n (bound_values a) x) as [d1 [e|o]] eqn:E
       end.
  all: repeat sure_step Hq.
  all: give_events; split; [reflexivity|]; intros d' outs Hp.
  all: try discriminate Hp.
  all: injection Hp as -> ->.
  all: world_simpl; rewrite ?insert_insert_eq, ?delete_insert_eq, ?(delete_id _ _ Hf).
  all: destruct outs as [|v outs]; simpl; rewrite ?lookup_insert_eq; repeat split.
Qed.

Lemma procedure_success_outcome_create_household :
  let drv := ledger_driver None [PInt 41] in
  let w : world (list (string * list pyval)) := start [] in
  let op := CreateHousehold (HouseholdCreate.Build_t 9 None None None None None None None) in
  (forall ev h, raises drv ev h = None)
  /\ txn w !! fresh w = None
  /\ exists args evs,
      trace (perform drv op w).2 = evs ++ trace w
      /\ List.filter is_callproc evs = [Callproc (fresh w) "SP_INSERT_HOUSEHOLD" args]
      /\ forall d' outs,
          procedure drv "SP_INSERT_HOUSEHOLD" (bound_values args) (database w)
          = (d', inr outs) ->
          (perform drv op w).1 = inr (hd PNone outs)
          /\ database (perform drv op w).2 = d'
          /\ txn (perform drv op w).2 = txn w.
Proof.
  intros drv w op. split; [reflexivity|]. split; [reflexivity|].
  exact (procedure_success_outcome _ drv w op (fun _ _ => eq_refl) eq_refl
           ltac:(discriminate)).
Defined.

(** ** Connections are not left open *)

Ltac close_step Hc :=
  match goal with
  | _ => progress cbn [is_Exception is_DatabaseError]
  | |- context [raises ?d (Close ?c) ?h] => rewrite (Hc h)
  | |- context [match raises ?d ?e ?h with _ => _ end] => destruct (raises d e h) eqn:?
  | |- context [match procedure ?d ?n ?a ?x with _ => _ end] =>
      destruct (procedure d n a x) as [? [?|?]] eqn:?
  | |- context [if is_Exception ?e then _ else _] => destruct (is_Exception e) eqn:?
  | |- context [if is_DatabaseError ?e then _ else _] => destruct (is_DatabaseError e) eqn:?
  | |- context [(<[?k := ?v]> ?m) !! ?k] => rewrite (lookup_insert_eq m k v)
  | _ => progress world_simpl
  end.

(** X11. Whatever else fails -- the connect, the cursor, the procedure,
    the commit, the rollback -- an operation leaves open exactly the
    connections that were open before it, provided closing its own
    connection does not fail: the connection it opened is closed again on
    every path, with or without an exception. *)
Theorem perform_leaves_no_connection :
  forall D (drv : driver D) (w : world D) (op : operation),
    (forall h, raises drv (Close (fresh w)) h = None) ->
    txn w !! fresh w = None ->
    txn (perform drv op w).2 = txn w.
Proof.
  intros D drv w op Hc Hf.
  destruct op; unfold_gateway; repeat close_step Hc;
    rewrite ?insert_insert_eq, ?delete_insert_eq, ?(delete_id _ _ Hf); reflexivity.
Qed.

Lemma perform_leaves_no_connection_failed_delete :
  let drv := ledger_driver (Some (DatabaseError "ORA-02292: child record found")) [] in
  let w : world (list (string * list pyval)) := start [] in
  (forall h, raises drv (Close (fresh w)) h = None)
  /\ txn w !! fresh w = None
  /\ txn (perform drv (DeleteHousehold 4) w).2 = txn w.
Proof.
  intros drv w. split; [reflexivity|]. split; [reflexivity|].
  exact (perform_leaves_no_connection _ drv w (DeleteHousehold 4) (fun _ => eq_refl) eq_refl).
Defined.

(** ** Reads and sessions of the connection manager *)

Ltac unfold_engine :=
  unfold get_database_statistics, test_connection, get_database_session, call_procedure,
    search_individuals, first_total_count,
    execute_raw_sql, get_session_context, get_session, session_execute, session_commit,
    session_rollback, session_close, try_except2, try_except, try_finally,
    pool_acquire, pool_release, logger_error, call, act, raise,
    mbind, mret, M_bind, M_ret, bind, ret in *.

Ltac engine_step :=
  match goal with
  | _ => progress cbn [is_Exception is_DatabaseError is_HTTPException]
  | |- context [match raises ?d ?e ?h with _ => _ end] => destruct (raises d e h) eqn:?
  | |- context [match statement ?d ?s ?p ?x with _ => _ end] =>
      destruct (statement d s p x) as [?|[[|? ?]|?]] eqn:?
  | |- context [match session_statement ?d ?s ?p ?x with _ => _ end] =>
      destruct (session_statement d s p x) as [? [?|[?|?]]] eqn:?
  | |- context [if is_Exception ?e then _ else _] => destruct (is_Exception e) eqn:?
  | |- context [(<[?k := ?v]> ?m) !! ?k] => rewrite (lookup_insert_eq m k v)
  | |- context [if ?b then _ else _] => destruct b eqn:?
  | _ => progress world_simpl
  end.

Ltac count_more :=
  unfold calls;
  cbn [List.filter is_commit is_connect is_close is_rollback is_callproc is_log logged
       is_checkout is_session_close is_session_commit is_session_rollback
       is_execute is_return length String.eqb Ascii.eqb Bool.eqb];
  rewrite ?Nat.eqb_refl; cbn [length].

(** X12. [execute_raw_sql] never changes the committed data and executes
    at most one statement.  When it returns, nothing was logged and the
    statement ran once on a pooled connection that went back to the pool.
    When it raises an [Exception], that same exception was logged, once and
    last, with the prefix of [execute_raw_sql]; an exception that is not an
    [Exception] passes through without a log. *)
Theorem execute_raw_sql_logs_and_reraises :
  forall D (drv : driver D) (settings : OracleSettings) (sql : string)
         (params : gmap string pyval) (w : world D),
    exists evs,
      trace (execute_raw_sql drv settings sql params w).2 = evs ++ trace w
      /\ database (execute_raw_sql drv settings sql params w).2 = database w
      /\ (calls is_execute evs <= 1)%nat
      /\ match (execute_raw_sql drv settings sql params w).1 with
         | inr rows =>
             evs = [Return; Execute sql params; Checkout]
             /\ rows_of (statement drv sql params (database w)) = Some rows
         | inl e =>
             if is_Exception e
             then exists rest,
                 evs = LogError "Error executing raw SQL" e :: rest
                 /\ calls is_log rest = 0%nat
             else calls is_log evs = 0%nat
         end.
Proof.
  intros D drv settings sql params w.
  unfold_engine. repeat engine_step.
  all: give_events; count_more.
  all: repeat split; try reflexivity; try lia.
  all: repeat match goal with
         | H : is_Exception ?e = _ |- context [is_Exception ?e] => rewrite H
         | H : statement _ _ _ _ = _ |- context [statement _ _ _ _] => rewrite H
         end; cbn [is_Exception rows_of]; try reflexivity.
  all: try (eexists; split; [reflexivity|reflexivity]).
Qed.

(** X13. [call_procedure] runs the one statement [CALL name(:k1, :k2, ...)],
    with a placeholder for every parameter in the caller's order, in a
    session of its own that starts from the committed data.  When it
    returns, the session was committed once, nothing was logged, and the
    committed data are those the statement produced; the value is the rows
    of the statement, or [None] when it returns no rows.  When it raises,
    the committed data are unchanged, and an [Exception] was logged, last,
    with the name of the procedure. *)
Theorem call_procedure_outcome :
  forall D (drv : driver D) (settings : OracleSettings) (name : string)
         (params : list (string * pyval)) (w : world D),
    let sql := ("CALL " ++ name ++ "(" ++ join ", " (map (fun kv => ":" ++ kv.1) params)
                ++ ")")%string in
    let run := call_procedure drv settings name params w in
    exists evs,
      trace run.2 = evs ++ trace w
      /\ (forall s q b, In (SessionExecute s q b) evs ->
          s = fresh w /\ q = sql /\ b = list_to_map params)
      /\ ((forall h, raises drv (SessionClose (fresh w)) h = None) ->
          checked_out run.2 = checked_out w)
      /\ match run.1 with
         | inr value =>
             calls (is_session_commit (fresh w)) evs = 1%nat
             /\ calls (is_session_close (fresh w)) evs = 1%nat
             /\ calls is_log evs = 0%nat
             /\ exists answer,
                 session_statement drv sql (list_to_map params) (database w)
                 = (database run.2, inr answer)
                 /\ value = match answer with Rows rows => Some rows | Rowcount _ => None end
         | inl e =>
             ((forall h, raises drv (SessionClose (fresh w)) h = None) ->
              database run.2 = database w)
             /\ (is_Exception e = true ->
                 exists rest,
                   evs = LogError ("Error calling procedure " ++ name) e :: rest)
         end.
Proof.
  intros D drv settings name params w sql run. subst run.
  unfold_engine. fold sql. repeat engine_step.
  all: give_events.
  all: split; [intros s q b Hin; in_events Hin; injection Hin as <- <- <-; repeat split|].
  all: split;
    [intros Hclose;
     try match goal with
       | H : raises _ (SessionClose _) _ = Some _ |- _ => rewrite Hclose in H; discriminate H
       end; lia|].
  all: count_more.
  all: repeat split; try reflexivity; try congruence.
  all: try (eexists; split; [eassumption|reflexivity]).
  all: try (intros _; eexists; reflexivity).
  all: try (eexists; split; reflexivity).
  all: intros Hclose;
    match goal with
    | H : raises _ (SessionClose _) _ = Some _ |- _ => rewrite Hclose in H; discriminate H
    end.
Qed.

Lemma call_procedure_outcome_ledger :
  let drv := ledger_driver None [] in
  let run := call_procedure drv default_settings "SP_REFRESH"
               [("region", PStr "Volta"); ("year", PInt 2021)] (start []) in
  run.1 = inr None
  /\ database run.2 = [("CALL SP_REFRESH(:region, :year)", [])]
  /\ exists evs,
      trace run.2 = evs ++ []
      /\ calls (is_session_commit 0) evs = 1%nat
      /\ calls is_log evs = 0%nat.
Proof.
  intros drv run.
  destruct (call_procedure_outcome _ drv default_settings "SP_REFRESH"
              [("region", PStr "Volta"); ("year", PInt 2021)] (start []))
    as (evs & Ht & _ & _ & Hm).
  split; [reflexivity|]. split; [reflexivity|].
  exists evs. split; [exact Ht|].
  split; [exact (proj1 Hm)|exact (proj1 (proj2 (proj2 Hm)))].
Defined.

(** X14. [get_database_session], the session the routes depend on, only
    closes its session: it calls neither commit nor rollback, so what the
    route did with the session and did not commit itself is not committed;
    the session is closed once whether the route returns or raises, and the
    route's outcome is passed on unless the close fails. *)
Theorem get_database_session_only_closes :
  forall D A (drv : driver D) (settings : OracleSettings) (body : nat -> M D A)
         (w : world D) s w1 r w2,
    get_session drv w = (inr s, w1) ->
    body s w1 = (r, w2) ->
    let run := get_database_session drv settings body w in
    exists evs,
      trace run.2 = evs ++ trace w2
      /\ calls (is_session_close s) evs = 1%nat
      /\ calls (is_session_commit s) evs = 0%nat
      /\ calls (is_session_rollback s) evs = 0%nat
      /\ database run.2 = database w2
      /\ (raises drv (SessionClose s) (trace w2) = None -> run.1 = r).
Proof.
  intros D A drv settings body w s w1 r w2 Hs Hb run. subst run.
  unfold get_database_session, mbind, M_bind, bind. rewrite Hs.
  unfold try_finally. rewrite Hb.
  unfold session_close, pool_release, call, act, mbind, M_bind, bind.
  repeat match goal with
         | |- context [match raises ?d ?e ?h with _ => _ end] => destruct (raises d e h) eqn:?
         | |- context [match ?m !! ?k with _ => _ end] => destruct (m !! k) as [[[] ?]|] eqn:?
         | |- context [if ?b then _ else _] => destruct b eqn:?
         | _ => progress world_simpl
         end.
  all: give_events; count_events.
  all: repeat split; try reflexivity; try congruence.
Qed.

Lemma get_database_session_only_closes_uncommitted_write :
  let drv := ledger_driver None [] in
  let body : nat -> M (list (string * list pyval)) result :=
    fun session => session_execute drv default_settings session "DELETE FROM HOUSEHOLD" ∅ in
  let run := get_database_session drv default_settings body (start []) in
  run.1 = inr (Rowcount 1)
  /\ database run.2 = []
  /\ exists evs,
      trace run.2 = evs ++ trace (body 0%nat (get_session drv (start [])).2).2
      /\ calls (is_session_close 0) evs = 1%nat
      /\ calls (is_session_commit 0) evs = 0%nat.
Proof.
  intros drv body run.
  destruct (get_database_session_only_closes _ _ drv default_settings body (start [])
              0%nat (get_session drv (start [])).2
              (body 0%nat (get_session drv (start [])).2).1
              (body 0%nat (get_session drv (start [])).2).2 eq_refl eq_refl)
    as (evs & H1 & H2 & H3 & _).
  split; [reflexivity|]. split; [reflexivity|].
  exists evs. repeat split; assumption.
Defined.

(** X15. [test_connection] never lets an [Exception] out and never changes
    the committed data or the number of connections checked out.  It
    returns [True] only when the test statement gave at least one row, with
    nothing logged; it returns [False] exactly when it caught an
    [Exception], which it logged once, last. *)
Theorem test_connection_outcome :
  forall D (drv : driver D) (settings : OracleSettings) (w : world D),
    let run := test_connection drv settings w in
    exists evs,
      trace run.2 = evs ++ trace w
      /\ database run.2 = database w
      /\ checked_out run.2 = checked_out w
      /\ match run.1 with
         | inr true =>
             calls is_log evs = 0%nat
             /\ exists row rows,
                 statement drv connection_test_sql ∅ (database w) = inr (Rows (row :: rows))
         | inr false =>
             exists e rest,
               evs = LogError "Database connection test failed" e :: rest
               /\ calls is_log rest = 0%nat
               /\ is_Exception e = true
         | inl e => is_Exception e = false /\ calls is_log evs = 0%nat
         end.
Proof.
  intros D drv settings w run. subst run.
  unfold_engine. repeat engine_step.
  all: give_events; count_more.
  all: repeat split; try reflexivity; try lia; try assumption.
  all: try (eexists; eexists; repeat split; try reflexivity; eassumption).
  all: try (eexists; eexists; repeat split; reflexivity).
Qed.

(** ** The statements of a search *)

Lemma execute_raw_sql_paths {D} (drv : driver D) (settings : OracleSettings)
    (sql : string) (params : gmap string pyval) (w : world D) :
  exists evs,
    trace (execute_raw_sql drv settings sql params w).2 = evs ++ trace w
    /\ database (execute_raw_sql drv settings sql params w).2 = database w
    /\ (forall q b, In (Execute q b) evs -> q = sql /\ b = params)
    /\ (calls is_execute evs <= 1)%nat
    /\ forall rows,
        (execute_raw_sql drv settings sql params w).1 = inr rows ->
        List.filter is_execute evs = [Execute sql params]
        /\ rows_of (statement drv sql params (database w)) = Some rows.
Proof.
  unfold_engine. repeat engine_step.
  all: give_events.
  all: split; [reflexivity|].
  all: split; [intros q b Hin; in_events Hin; injection Hin as <- <-; auto|].
  all: split; [count_more; lia|].
  all: intros rows Hr; try discriminate Hr; injection Hr as <-.
  all: split; [reflexivity|].
  all: match goal with H : statement _ _ _ _ = _ |- _ => rewrite H end; reflexivity.
Qed.

(** X16. [search_individuals] changes no committed data and executes
    nothing but its count statement and its data statement.  When it
    returns it has executed the count statement first and the data statement
    after it, each once.  When the first row of the count answer has no
    [TOTAL_COUNT] column, the search cannot return and the data statement is
    never executed: at most the count statement has run. *)
Theorem search_individuals_statements :
  forall D (drv : driver D) (settings : OracleSettings) (F : SearchFilters.t)
         (p : PaginationParams.t) (w : world D),
    let run := search_individuals drv settings F p w in
    exists evs,
      trace run.2 = evs ++ trace w
      /\ database run.2 = database w
      /\ (forall sql params,
            In (Execute sql params) evs ->
            (sql, params) = count_query F \/ (sql, params) = data_query F p)
      /\ (forall r,
            run.1 = inr r ->
            List.filter is_execute evs
            = [Execute (data_query F p).1 (data_query F p).2;
               Execute (count_query F).1 (count_query F).2])
      /\ (forall row rest,
            rows_of (statement drv (count_query F).1 (count_query F).2 (database w))
            = Some (row :: rest) ->
            row !! "TOTAL_COUNT" = None ->
            (forall r, run.1 <> inr r)
            /\ (calls is_execute evs <= 1)%nat
            /\ forall sql params,
                In (Execute sql params) evs -> (sql, params) = count_query F).
Proof.
  intros D drv settings F p w run. subst run.
  unfold search_individuals.
  destruct (count_query F) as [csql cparams] eqn:Ec.
  destruct (data_query F p) as [dsql dparams] eqn:Ed.
  cbn [fst snd]. unfold mbind, M_bind, bind.
  destruct (execute_raw_sql_paths drv settings csql cparams w)
    as (evs1 & Ht1 & Hd1 & Hin1 & Hc1 & Hok1).
  destruct (execute_raw_sql drv settings csql cparams w) as [[e|count_result] w1].
  { cbn [fst snd] in *. exists evs1.
    split; [exact Ht1|]. split; [exact Hd1|].
    split; [intros q b Hin; left; destruct (Hin1 q b Hin) as [-> ->]; reflexivity|].
    split; [intros r Hr; discriminate Hr|].
    intros row rest _ _. split; [intros r Hr; discriminate Hr|].
    split; [exact Hc1|].
    intros q b Hin. destruct (Hin1 q b Hin) as [-> ->]. reflexivity. }
  cbn [fst snd] in *.
  destruct (Hok1 count_result eq_refl) as [Hf1 Hrows1].
  assert (Hstop : forall e : exn,
            exists evs,
              trace w1 = evs ++ trace w
              /\ database w1 = database w
              /\ (forall sql params,
                    In (Execute sql params) evs ->
                    (sql, params) = (csql, cparams) \/ (sql, params) = (dsql, dparams))
              /\ (forall r : list (gmap string pyval) * pyval,
                    @inl exn (list (gmap string pyval) * pyval) e = inr r ->
                    List.filter is_execute evs
                    = [Execute dsql dparams; Execute csql cparams])
              /\ (calls is_execute evs <= 1)%nat
              /\ forall sql params,
                  In (Execute sql params) evs -> (sql, params) = (csql, cparams)).
  { intros e. exists evs1.
    split; [exact Ht1|]. split; [exact Hd1|].
    split; [intros q b Hin; left; destruct (Hin1 q b Hin) as [-> ->]; reflexivity|].
    split; [intros r Hr; discriminate Hr|].
    split; [exact Hc1|].
    intros q b Hin. destruct (Hin1 q b Hin) as [-> ->]. reflexivity. }
  assert (Hgo : forall total : pyval,
            let run :=
              match execute_raw_sql drv settings dsql dparams w1 with
              | (inr data_result, w2) => (inr (data_result, total), w2)
              | (inl e, w2) => (inl e, w2)
              end in
            exists evs,
              trace run.2 = evs ++ trace w
              /\ database run.2 = database w
              /\ (forall sql params,
                    In (Execute sql params) evs ->
                    (sql, params) = (csql, cparams) \/ (sql, params) = (dsql, dparams))
              /\ (forall r,
                    run.1 = inr r ->
                    List.filter is_execute evs
                    = [Execute dsql dparams; Execute csql cparams])).
  { intros total.
    destruct (execute_raw_sql_paths drv settings dsql dparams w1)
      as (evs2 & Ht2 & Hd2 & Hin2 & Hc2 & Hok2).
    destruct (execute_raw_sql drv settings dsql dparams w1) as [[e|data_result] w2];
      cbn [fst snd] in *; exists (evs2 ++ evs1).
    all: split; [rewrite Ht2, Ht1; apply app_assoc|].
    all: split; [congruence|].
    all: split; [intros q b Hin; apply in_app_or in Hin as [Hin|Hin];
                 [right; destruct (Hin2 q b Hin) as [-> ->]
                 |left; destruct (Hin1 q b Hin) as [-> ->]]; reflexivity|].
    all: intros r Hr; try discriminate Hr.
    rewrite List.filter_app, Hf1. rewrite (proj1 (Hok2 data_result eq_refl)). reflexivity. }
  unfold first_total_count.
  destruct count_result as [|row0 rest0].
  { cbn [mret M_ret ret]. destruct (Hgo (PInt 0)) as (evs & H1 & H2 & H3 & H4).
    exists evs. split; [exact H1|]. split; [exact H2|]. split; [exact H3|].
    split; [exact H4|].
    intros row rest Hrows. rewrite Hrows1 in Hrows. discriminate Hrows. }
  destruct (row0 !! "TOTAL_COUNT") as [total|] eqn:Hrow0.
  { cbn [mret M_ret ret]. destruct (Hgo total) as (evs & H1 & H2 & H3 & H4).
    exists evs. split; [exact H1|]. split; [exact H2|]. split; [exact H3|].
    split; [exact H4|].
    intros row rest Hrows Hrow. rewrite Hrows1 in Hrows. injection Hrows as <- <-.
    congruence. }
  unfold raise. cbn [fst snd].
  destruct (Hstop (KeyError "TOTAL_COUNT")) as (evs & H1 & H2 & H3 & H4 & H5 & H6).
  exists evs. split; [exact H1|]. split; [exact H2|]. split; [exact H3|].
  split; [exact H4|].
  intros row rest _ _. split; [intros r Hr; discriminate Hr|].
  split; [exact H5|exact H6].
Qed.

Lemma search_individuals_statements_lower_case :
  let p := {| PaginationParams.page := 1; PaginationParams.size := 20 |} in
  let run := search_individuals lower_case_driver default_settings adults p
               (start [1; 2; 3]) in
  run.1 = inl (KeyError "TOTAL_COUNT")
  /\ exists evs,
      trace run.2 = evs ++ []
      /\ (calls is_execute evs <= 1)%nat.
Proof.
  intros p run.
  destruct (search_individuals_statements _ lower_case_driver default_settings adults p
              (start [1; 2; 3])) as (evs & Ht & _ & _ & _ & H).
  split; [vm_compute; reflexivity|].
  exists evs. split; [exact Ht|].
  exact (proj1 (proj2 (H _ _ eq_refl eq_refl))).
Defined.

(** ** What the routes answer *)










(** ** The search route and the statistics *)



(** X21. [get_database_statistics] executes its one statement without
    bindings and returns the first row of the answer; for an answer without
    rows it returns the empty record instead of failing. *)
Theorem get_database_statistics_first_row :
  forall D (drv : driver D) (settings : OracleSettings) (w : world D) stats,
    (get_database_statistics drv settings w).1 = inr stats ->
    exists rows,
      rows_of (statement drv database_statistics_sql ∅ (database w)) = Some rows
      /\ stats = match rows with row :: _ => row | [] => ∅ end.
Proof.
  intros D drv settings w stats.
  unfold get_database_statistics, mbind, M_bind, bind.
  destruct (execute_raw_sql drv settings database_statistics_sql ∅ w) as [[e|rows] w1] eqn:E.
  - discriminate.
  - cbn [fst mret M_ret ret]. intros H. injection H as <-.
    exists rows. split; [|reflexivity].
    apply (execute_raw_sql_rows drv settings _ _ w w1). exact E.
Qed.

Lemma get_database_statistics_first_row_empty :
  let drv := ledger_driver None [] in
  (get_database_statistics drv default_settings (start [])).1 = inr ∅
  /\ exists rows,
      rows_of (statement drv database_statistics_sql ∅ []) = Some rows
      /\ (∅ : gmap string pyval) = match rows with row :: _ => row | [] => ∅ end.
Proof.
  intros drv. split; [reflexivity|].
  exact (get_database_statistics_first_row _ drv default_settings (start []) ∅ eq_refl).
Defined.

(** ** Defaults of a new household *)

(** X22. [create_household] never passes [None] for the number of visits
    or the status of the housing unit: on every path, each call of its
    procedure binds eight values and one output variable; the sixth value is
    the number of visits, replaced by 1 when it is absent or 0, and the
    eighth is the status, replaced by OCCUPIED when it is absent. *)
Theorem create_household_defaults :
  forall D (drv : driver D) (w : world D) (household_data : HouseholdCreate.t),
    let visits :=
      match HouseholdCreate.total_visits household_data with
      | Some v => if v =? 0 then 1 else v
      | None => 1
      end in
    let status :=
      match HouseholdCreate.housing_unit_status household_data with
      | Some s => HousingUnitStatus_value s
      | None => "OCCUPIED"
      end in
    exists evs,
      trace (create_household drv household_data w).2 = evs ++ trace w
      /\ forall c name args,
          In (Callproc c name args) evs ->
          name = "SP_INSERT_HOUSEHOLD"
          /\ length (bound_values args) = 8%nat
          /\ bound_values args !! 5%nat = Some (PInt visits)
          /\ visits <> 0
          /\ bound_values args !! 7%nat = Some (PStr status)
          /\ out_variables args = [S (fresh w)].
Proof.
  intros D drv w household_data visits status.
  assert (Hv : int_or (HouseholdCreate.total_visits household_data) 1 = PInt visits
               /\ visits <> 0).
  { unfold int_or, truthy_int, visits.
    destruct (HouseholdCreate.total_visits household_data) as [v|]; [|split; [reflexivity|lia]].
    destruct (Z.eqb_spec v 0); split; try reflexivity; lia. }
  assert (Hs : value_or HousingUnitStatus_value
                 (HouseholdCreate.housing_unit_status household_data) (PStr "OCCUPIED")
               = PStr status).
  { unfold status.
    destruct (HouseholdCreate.housing_unit_status household_data) as [[]|]; reflexivity. }
  destruct Hv as [Hv Hne].
  unfold_gateway. rewrite Hv, Hs. repeat step; give_events.
  all: intros c name args Hin; in_events Hin; injection Hin as <- <- <-.
  all: repeat split; assumption.
Qed.

Lemma create_household_defaults_zero_visits :
  let household_data := HouseholdCreate.Build_t 9 None None None None (Some 0) None None in
  let run := create_household (ledger_driver None [PInt 41]) household_data (start []) in
  database run.2
  = [("SP_INSERT_HOUSEHOLD",
      [PInt 9; PNone; PNone; PNone; PNone; PInt 1; PNone; PStr "OCCUPIED"])]
  /\ exists evs,
      trace run.2 = evs ++ []
      /\ forall c name args,
          In (Callproc c name args) evs -> bound_values args !! 5%nat = Some (PInt 1).
Proof.
  intros household_data run.
  destruct (create_household_defaults _ (ledger_driver None [PInt 41]) (start [])
              household_data) as (evs & Ht & H).
  split; [reflexivity|].
  exists evs. split; [exact Ht|].
  intros c name args Hin. exact (proj1 (proj2 (proj2 (H c name args Hin)))).
Defined.

(** ** The health route *)

